(** * json_md.py: task export to report and metadata

    A shallow embedding of [src/json_md.py] ([create_md_file],
    [create_meta_file], [proc_task]) together with the fragment of the
    Python runtime the three functions rely on: dynamically typed values,
    exceptions, subscripting, truthiness, iteration, the [str] methods
    [splitlines], [strip], [join] and [format], [json.dumps] with
    [ensure_ascii=False], and [uuid.uuid4]. *)

From Stdlib Require Import List NArith ZArith Bool String Ascii Lia DecimalString.
Import ListNotations.

Set Implicit Arguments.
Set Warnings "-register-all".

(** ** Text *)

(** A Python [str] is a sequence of Unicode code points. *)
Definition pystr := list N.

(** ASCII literals of the source, written as Rocq strings. *)
Definition lit (s : string) : pystr := map N_of_ascii (list_ascii_of_string s).

Fixpoint pystr_eqb (a b : pystr) : bool :=
  match a, b with
  | [], [] => true
  | x :: a', y :: b' => N.eqb x y && pystr_eqb a' b'
  | _, _ => false
  end.

(** Code points the source and the runtime name explicitly. *)
Definition LF : N := 10.
Definition CR : N := 13.
Definition DQUOTE : N := 34.
Definition BACKSLASH : N := 92.

(** ** Values and exceptions *)

(** The objects the program handles: what a decoded JSON document holds
    (numbers restricted to integers) and the [UUID] object made by
    [uuid4].  A [dict] keeps insertion order and has [str] keys. *)
Inductive value : Type :=
| VNone
| VBool (b : bool)
| VInt (z : Z)
| VStr (s : pystr)
| VList (l : list value)
| VDict (d : list (pystr * value))
| VUUID (u : N).

Inductive exn : Type :=
| KeyError (k : value)
| IndexError
| TypeError
| AttributeError
| ValueError.

Inductive result (A : Type) : Type :=
| Ok (a : A)
| Raise (e : exn).

Arguments Ok {A} a.
Arguments Raise {A} e.

Definition bind {A B} (r : result A) (k : A -> result B) : result B :=
  match r with
  | Ok a => k a
  | Raise e => Raise e
  end.

Declare Scope py_scope.
Delimit Scope py_scope with py.
Notation "x <- c ;; k" := (bind c (fun x => k))
  (at level 61, c at next level, right associativity) : py_scope.
Open Scope py_scope.

(** [[f(x) for x in l]], stopping at the first exception. *)
Fixpoint mapM {A B} (f : A -> result B) (l : list A) : result (list B) :=
  match l with
  | [] => Ok []
  | x :: l' => y <- f x ;; ys <- mapM f l' ;; Ok (y :: ys)
  end.

(** ** Built-in operations *)

(** [bool(v)], as used by [if v:]. *)
Definition py_truthy (v : value) : bool :=
  match v with
  | VNone => false
  | VBool b => b
  | VInt z => negb (Z.eqb z 0)
  | VStr s => match s with [] => false | _ => true end
  | VList l => match l with [] => false | _ => true end
  | VDict d => match d with [] => false | _ => true end
  | VUUID _ => true
  end.

Fixpoint dict_lookup (k : pystr) (d : list (pystr * value)) : option value :=
  match d with
  | [] => None
  | (k', v) :: d' => if pystr_eqb k k' then Some v else dict_lookup k d'
  end.

(** Sequence indexing with Python's negative indices. *)
Definition seq_index {A} (l : list A) (i : Z) : result A :=
  let n := Z.of_nat (List.length l) in
  let j := if Z.ltb i 0 then Z.add i n else i in
  if Z.ltb j 0 then Raise IndexError
  else match nth_error l (Z.to_nat j) with
       | Some x => Ok x
       | None => Raise IndexError
       end.

(** [c[k]]. *)
Definition py_getitem (c k : value) : result value :=
  match c with
  | VDict d =>
      match k with
      | VStr s => match dict_lookup s d with
                  | Some v => Ok v
                  | None => Raise (KeyError k)
                  end
      | VList _ | VDict _ => Raise TypeError
      | _ => Raise (KeyError k)
      end
  | VList l =>
      match k with
      | VInt i => seq_index l i
      | VBool b => seq_index l (Z.b2z b)
      | _ => Raise TypeError
      end
  | VStr s =>
      match k with
      | VInt i => c <- seq_index s i ;; Ok (VStr [c])
      | VBool b => c <- seq_index s (Z.b2z b) ;; Ok (VStr [c])
      | _ => Raise TypeError
      end
  | _ => Raise TypeError
  end.

(** [len(v)]. *)
Definition py_len (v : value) : result Z :=
  match v with
  | VStr s => Ok (Z.of_nat (List.length s))
  | VList l => Ok (Z.of_nat (List.length l))
  | VDict d => Ok (Z.of_nat (List.length d))
  | _ => Raise TypeError
  end.

(** [v[1:]].  A [dict] rejects the slice (as an unhashable key before
    CPython 3.12). *)
Definition py_slice_from1 (v : value) : result value :=
  match v with
  | VList l => Ok (VList (skipn 1 l))
  | VStr s => Ok (VStr (skipn 1 s))
  | _ => Raise TypeError
  end.

(** The items [for x in v] visits. *)
Definition py_iter (v : value) : result (list value) :=
  match v with
  | VList l => Ok l
  | VStr s => Ok (map (fun c => VStr [c]) s)
  | VDict d => Ok (map (fun kv => VStr (fst kv)) d)
  | _ => Raise TypeError
  end.

(** [a + b].  [UUID] defines no [__add__] and [str] no [__radd__]. *)
Definition py_add (a b : value) : result value :=
  match a, b with
  | VStr s, VStr t => Ok (VStr (s ++ t))
  | VList l, VList m => Ok (VList (l ++ m))
  | VInt x, VInt y => Ok (VInt (x + y))
  | VInt x, VBool y => Ok (VInt (x + Z.b2z y))
  | VBool x, VInt y => Ok (VInt (Z.b2z x + y))
  | VBool x, VBool y => Ok (VInt (Z.b2z x + Z.b2z y))
  | _, _ => Raise TypeError
  end.

(** ** [str] methods *)

(** [str.splitlines] boundaries. *)
Definition is_linebreak (c : N) : bool :=
  (N.leb 10 c && N.leb c 13) || (N.leb 28 c && N.leb c 30)
  || N.eqb c 133 || N.eqb c 8232 || N.eqb c 8233.

(** [str.isspace] for one code point; [strip] removes these. *)
Definition is_space (c : N) : bool :=
  (N.leb 9 c && N.leb c 13) || (N.leb 28 c && N.leb c 32)
  || N.eqb c 133 || N.eqb c 160 || N.eqb c 5760
  || (N.leb 8192 c && N.leb c 8202)
  || N.eqb c 8232 || N.eqb c 8233 || N.eqb c 8239 || N.eqb c 8287
  || N.eqb c 12288.

(** [s.splitlines()]: the scan keeps the line read so far in [cur]
    (reversed); a boundary closes it, [\r\n] counting as one boundary, and
    no empty line is produced after a final boundary. *)
Fixpoint splitlines_from (cur : pystr) (s : pystr) : list pystr :=
  match s with
  | [] => match cur with [] => [] | _ => [rev cur] end
  | c :: rest =>
      if is_linebreak c then
        rev cur ::
          (if N.eqb c CR then
             match rest with
             | c' :: rest' =>
                 if N.eqb c' LF then splitlines_from [] rest'
                 else splitlines_from [] rest
             | [] => splitlines_from [] rest
             end
           else splitlines_from [] rest)
      else splitlines_from (c :: cur) rest
  end.

Definition str_splitlines (s : pystr) : list pystr := splitlines_from [] s.

Fixpoint lstrip (s : pystr) : pystr :=
  match s with
  | c :: rest => if is_space c then lstrip rest else s
  | [] => []
  end.

(** [s.strip()]. *)
Definition str_strip (s : pystr) : pystr := rev (lstrip (rev (lstrip s))).

(** [sep.join(items)] on items already known to be [str]. *)
Fixpoint join (sep : pystr) (items : list pystr) : pystr :=
  match items with
  | [] => []
  | [x] => x
  | x :: rest => x ++ sep ++ join sep rest
  end.

Definition as_str (v : value) : result pystr :=
  match v with
  | VStr s => Ok s
  | _ => Raise TypeError
  end.

(** [sep.join(v)]: [v] is iterated and every item must be a [str]. *)
Definition str_join (sep : pystr) (v : value) : result pystr :=
  items <- py_iter v ;;
  strs <- mapM as_str items ;;
  Ok (join sep strs).

(** [v.splitlines()]: only [str] has the attribute. *)
Definition py_splitlines (v : value) : result (list pystr) :=
  match v with
  | VStr s => Ok (str_splitlines s)
  | _ => Raise AttributeError
  end.

(** [[line for line in lines if line.strip()]]. *)
Definition nonblank (line : pystr) : bool := py_truthy (VStr (str_strip line)).

(** ** Rendering values as text *)

Definition hex_digit (n : N) : N :=
  if N.ltb n 10 then N.add 48 n else N.add 87 n.

(** [n] in lower-case hexadecimal, zero-padded to [width] digits. *)
Fixpoint hex_fixed (width : nat) (n : N) : pystr :=
  match width with
  | O => []
  | S w => hex_fixed w (N.div n 16) ++ [hex_digit (N.modulo n 16)]
  end.

(** [str(int)]. *)
Definition int_str (z : Z) : pystr := lit (NilZero.string_of_int (Z.to_int z)).

(** [str(UUID)]: the 32 hexadecimal digits grouped 8-4-4-4-12. *)
Definition uuid_str (u : N) : pystr :=
  let h := hex_fixed 32 u in
  firstn 8 h ++ lit "-" ++ firstn 4 (skipn 8 h) ++ lit "-"
  ++ firstn 4 (skipn 12 h) ++ lit "-" ++ firstn 4 (skipn 16 h) ++ lit "-"
  ++ skipn 20 h.

Section Program.

(** [str] of a [list] or [dict] is their [repr], which depends on the
    interpreter's tables of printable characters; it is left abstract. *)
Variable container_repr : value -> pystr.

(** [format(v, '')], which is [str(v)] for every type here. *)
Definition py_str (v : value) : pystr :=
  match v with
  | VNone => lit "None"
  | VBool true => lit "True"
  | VBool false => lit "False"
  | VInt z => int_str z
  | VStr s => s
  | VUUID u => uuid_str u
  | VList _ | VDict _ => container_repr v
  end.

(** Characters of a keyword field name. *)
Definition is_name_char (c : N) : bool :=
  (N.leb 48 c && N.leb c 57) || (N.leb 65 c && N.leb c 90)
  || (N.leb 97 c && N.leb c 122) || N.eqb c 95.

Definition is_digit (c : N) : bool := N.leb 48 c && N.leb c 57.

(** The value a replacement field [{name}] stands for: an empty or
    numeric name indexes the (empty) positional arguments. *)
Definition field_value (kwargs : list (pystr * value)) (name : pystr)
  : result value :=
  if forallb is_digit name then Raise IndexError
  else match dict_lookup name kwargs with
       | Some v => Ok v
       | None => Raise (KeyError (VStr name))
       end.

(** [template.format( **kwargs )], scanning left to right; [name] holds
    the (reversed) field name being read, if any.  Replacement fields are
    plain keyword names, as in the three templates of the program: no
    conversion, format spec, attribute or index. *)
Fixpoint format_from (kwargs : list (pystr * value)) (name : option pystr)
  (s : pystr) : result pystr :=
  match s with
  | [] => match name with None => Ok [] | Some _ => Raise ValueError end
  | c :: rest =>
      match name with
      | None =>
          if N.eqb c 123 then
            match rest with
            | c' :: rest' =>
                if N.eqb c' 123 then
                  r <- format_from kwargs None rest' ;; Ok (123%N :: r)
                else format_from kwargs (Some []) rest
            | [] => Raise ValueError
            end
          else if N.eqb c 125 then
            match rest with
            | c' :: rest' =>
                if N.eqb c' 125 then
                  r <- format_from kwargs None rest' ;; Ok (125%N :: r)
                else Raise ValueError
            | [] => Raise ValueError
            end
          else r <- format_from kwargs None rest ;; Ok (c :: r)
      | Some n =>
          if N.eqb c 125 then
            v <- field_value kwargs (rev n) ;;
            r <- format_from kwargs None rest ;;
            Ok (py_str v ++ r)
          else if is_name_char c then format_from kwargs (Some (c :: n)) rest
          else Raise ValueError
      end
  end.

(** [template.format( **v )]: [v] must be a mapping. *)
Definition str_format (template : pystr) (v : value) : result pystr :=
  match v with
  | VDict d => format_from d None template
  | _ => Raise TypeError
  end.

(** ** [json.dumps(..., ensure_ascii=False)] *)

(** One character of a JSON string: only the quote, the backslash and
    the control characters are escaped. *)
Definition escape_char (c : N) : pystr :=
  if N.eqb c DQUOTE then [BACKSLASH; DQUOTE]
  else if N.eqb c BACKSLASH then [BACKSLASH; BACKSLASH]
  else if N.eqb c 10 then [BACKSLASH; 110%N]
  else if N.eqb c 13 then [BACKSLASH; 114%N]
  else if N.eqb c 9 then [BACKSLASH; 116%N]
  else if N.eqb c 8 then [BACKSLASH; 98%N]
  else if N.eqb c 12 then [BACKSLASH; 102%N]
  else if N.ltb c 32 then BACKSLASH :: 117%N :: hex_fixed 4 c
  else [c].

Definition encode_basestring (s : pystr) : pystr :=
  DQUOTE :: flat_map escape_char s ++ [DQUOTE].

Fixpoint json_dumps (v : value) : result pystr :=
  match v with
  | VNone => Ok (lit "null")
  | VBool true => Ok (lit "true")
  | VBool false => Ok (lit "false")
  | VInt z => Ok (int_str z)
  | VStr s => Ok (encode_basestring s)
  | VList l =>
      items <- (fix items (l : list value) : result (list pystr) :=
                  match l with
                  | [] => Ok []
                  | x :: l' =>
                      y <- json_dumps x ;; ys <- items l' ;; Ok (y :: ys)
                  end) l ;;
      Ok (lit "[" ++ join (lit ", ") items ++ lit "]")
  | VDict d =>
      items <- (fix items (d : list (pystr * value)) : result (list pystr) :=
                  match d with
                  | [] => Ok []
                  | (k, x) :: d' =>
                      y <- json_dumps x ;; ys <- items d' ;;
                      Ok ((encode_basestring k ++ lit ": " ++ y) :: ys)
                  end) d ;;
      Ok (lit "{" ++ join (lit ", ") items ++ lit "}")
  | VUUID _ => Raise TypeError
  end.

(** ** [uuid.uuid4] *)

(** The operating system's random source: [pool] lists the successive
    16-byte draws, [drawn] counts those already handed out. *)
Record entropy : Type := { pool : nat -> N; drawn : nat }.

Definition urandom16 (w : entropy) : N * entropy :=
  (N.modulo (pool w (drawn w)) (N.pow 2 128),
   {| pool := pool w; drawn := S (drawn w) |}).

(** [UUID(bytes=..., version=4)]: variant bits set to RFC 4122, version
    nibble set to 4. *)
Definition uuid_v4_of (r : N) : N :=
  let r := N.ldiff r (N.shiftl 49152 48) in
  let r := N.lor r (N.shiftl 32768 48) in
  let r := N.ldiff r (N.shiftl 61440 64) in
  N.lor r (N.shiftl 4 76).

Definition uuid4 (w : entropy) : value * entropy :=
  let (r, w') := urandom16 w in (VUUID (uuid_v4_of r), w').

(** ** [create_md_file] *)

Definition main_task_template : pystr := lit
"# Summary
{summary}
## Description
{description}
## Task Info
* Status: {status}
* Updated: {updated}
* Issuetype: {issuetype}
## Labels
{labels}
## Market Affected Field Name
{marketAffectedFieldName}
## Acceptance Criteria Field Name
{acceptanceCriteriaFieldName}
---
".

Definition attachment_template : pystr := lit
"{file_name}
* ID: {file_id}
* Created: {created}
* File Size: {size}
* Download URL: {url}
---
".

Definition sub_tasks_template : pystr := lit
"{summary}
* Key: {key}
* URL: {url}
---
".

Definition attachment_header : pystr := lit "## Attachment" ++ [LF].
Definition sub_tasks_header : pystr := lit "## Sub Tasks" ++ [LF].

(** [for x in items: md_content += template.format( **x )]. *)
Fixpoint append_blocks (template : pystr) (md_content : pystr)
  (items : list value) : result pystr :=
  match items with
  | [] => Ok md_content
  | x :: rest =>
      block <- str_format template x ;;
      append_blocks template (md_content ++ block) rest
  end.

Definition create_md_file (md_dict attach_list sub_task_list : value)
  : result pystr :=
  md_content <- str_format main_task_template md_dict ;;
  md_content <-
    (if py_truthy attach_list then
       items <- py_iter attach_list ;;
       append_blocks attachment_template (md_content ++ attachment_header) items
     else Ok md_content) ;;
  md_content <-
    (if py_truthy sub_task_list then
       items <- py_iter sub_task_list ;;
       append_blocks sub_tasks_template (md_content ++ sub_tasks_header) items
     else Ok md_content) ;;
  Ok md_content.

(** ** [create_meta_file] *)

(** The keyword arguments of a call; [None] is an argument left out. *)
Record meta_kwargs : Type := {
  level : option value;
  title : option value;
  file_name : option value;
  file_record_id : option value;
  file_original_name : option value;
  file_original_path : option value;
  source : option value;
  value_stream : option value;
  categories : option value;
  parent_file_name : option value;
  attachment_type : option value;
  owner : option value
}.

Definition no_kwargs : meta_kwargs :=
  {| level := None; title := None; file_name := None;
     file_record_id := None; file_original_name := None;
     file_original_path := None; source := None; value_stream := None;
     categories := None; parent_file_name := None;
     attachment_type := None; owner := None |}.

Definition arg_or (default : value) (arg : option value) : value :=
  match arg with
  | Some v => v
  | None => default
  end.

Definition meta_content (kw : meta_kwargs) : value :=
  VDict
    [ (lit "level", arg_or (VInt 0) (level kw));
      (lit "title", arg_or VNone (title kw));
      (lit "file_name", arg_or VNone (file_name kw));
      (lit "file_record_id", arg_or VNone (file_record_id kw));
      (lit "file_original_name", arg_or VNone (file_original_name kw));
      (lit "file_original_path", arg_or VNone (file_original_path kw));
      (lit "source", arg_or VNone (source kw));
      (lit "value_stream", arg_or VNone (value_stream kw));
      (lit "categories", arg_or VNone (categories kw));
      (lit "parent_file_name", arg_or VNone (parent_file_name kw));
      (lit "attachment_type", arg_or (VStr (lit "file")) (attachment_type kw));
      (lit "owner", arg_or VNone (owner kw)) ].

Definition create_meta_file (kw : meta_kwargs) : result pystr :=
  json_dumps (meta_content kw).

(** ** [proc_task] *)

Definition key (s : string) : value := VStr (lit s).

(** Lines 77-80: the issue the report is about. *)
Definition main_task_of (json_result : value) (is_main_task : bool)
  : result value :=
  if is_main_task then
    issues <- py_getitem json_result (key "issues") ;;
    py_getitem issues (VInt 0)
  else Ok json_result.

(** Line 86. *)
Definition labels_str_of (fields : value) : result pystr :=
  labels <- py_getitem fields (key "labels") ;;
  str_join (lit ", ") labels.

(** Line 87. *)
Definition desc_of (fields : value) : result pystr :=
  description <- py_getitem fields (key "description") ;;
  lines <- py_splitlines description ;;
  Ok (join (lit " ") (filter nonblank lines)).

(** Lines 88-91. *)
Definition acfn_of (fields : value) : result pystr :=
  cf <- py_getitem fields (key "customfield_27708") ;;
  if py_truthy cf then
    cf <- py_getitem fields (key "customfield_27708") ;;
    lines <- py_splitlines cf ;;
    Ok (join [LF] (filter nonblank lines))
  else Ok [].

(** Lines 92-95. *)
Definition mafn_of (fields : value) : result value :=
  cf <- py_getitem fields (key "customfield_26615") ;;
  if py_truthy cf then
    cf <- py_getitem fields (key "customfield_26615") ;;
    first <- py_getitem cf (VInt 0) ;;
    py_getitem first (key "value")
  else Ok (VStr []).

(** Lines 96-105, after lines 86-95. *)
Definition md_dict_of (fields : value) : result value :=
  labels_str <- labels_str_of fields ;;
  desc <- desc_of fields ;;
  acfn <- acfn_of fields ;;
  mafn <- mafn_of fields ;;
  summary <- py_getitem fields (key "summary") ;;
  status <- py_getitem fields (key "status") ;;
  status_name <- py_getitem status (key "name") ;;
  updated <- py_getitem fields (key "updated") ;;
  issuetype <- py_getitem fields (key "issuetype") ;;
  issuetype_name <- py_getitem issuetype (key "name") ;;
  Ok (VDict
        [ (lit "summary", summary);
          (lit "description", VStr desc);
          (lit "status", status_name);
          (lit "updated", updated);
          (lit "issuetype", issuetype_name);
          (lit "labels", VStr labels_str);
          (lit "marketAffectedFieldName", mafn);
          (lit "acceptanceCriteriaFieldName", VStr acfn) ]).

(** The mapping built for one element of [fields['attachment']]. *)
Definition attach_entry (info : value) : result value :=
  file_id <- py_getitem info (key "id") ;;
  file_name <- py_getitem info (key "filename") ;;
  created <- py_getitem info (key "created") ;;
  size <- py_getitem info (key "size") ;;
  url <- py_getitem info (key "content") ;;
  Ok (VDict
        [ (lit "file_id", file_id);
          (lit "file_name", file_name);
          (lit "created", created);
          (lit "size", size);
          (lit "url", url) ]).

(** Lines 108-111. *)
Definition attach_list_of (fields : value) : result value :=
  attachment <- py_getitem fields (key "attachment") ;;
  if py_truthy attachment then
    attachment <- py_getitem fields (key "attachment") ;;
    infos <- py_iter attachment ;;
    entries <- mapM attach_entry infos ;;
    Ok (VList entries)
  else Ok (VList []).

(** The mapping appended for one sub-task (lines 117-122). *)
Definition sub_task_entry (sub_task : value) : result value :=
  sub_fields <- py_getitem sub_task (key "fields") ;;
  summary <- py_getitem sub_fields (key "summary") ;;
  k <- py_getitem sub_task (key "key") ;;
  url <- py_getitem sub_task (key "self") ;;
  Ok (VDict [ (lit "summary", summary); (lit "key", k); (lit "url", url) ]).

(** [for sub_task in items: sub_task_list.append(...)]. *)
Fixpoint append_sub_tasks (sub_task_list : list value) (items : list value)
  : result (list value) :=
  match items with
  | [] => Ok sub_task_list
  | sub_task :: rest =>
      entry <- sub_task_entry sub_task ;;
      append_sub_tasks (sub_task_list ++ [entry]) rest
  end.

(** Lines 114-123. *)
Definition sub_task_list_of (json_result : value) : result value :=
  issues <- py_getitem json_result (key "issues") ;;
  n <- py_len issues ;;
  if Z.ltb 1 n then
    issues <- py_getitem json_result (key "issues") ;;
    others <- py_slice_from1 issues ;;
    items <- py_iter others ;;
    sub_task_list <- append_sub_tasks [] items ;;
    Ok (VList sub_task_list)
  else Ok (VList []).

(** What lines 77-123 leave in the local variables. *)
Record extracted : Type := {
  x_main_task : value;
  x_file_name : value;
  x_md_dict : value;
  x_attach_list : value;
  x_sub_task_list : value
}.

(** Lines 77-123: the extraction. *)
Definition extract (json_result : value) (is_main_task : bool)
  : result extracted :=
  main_task <- main_task_of json_result is_main_task ;;
  fields <- py_getitem main_task (key "fields") ;;
  file_name <- py_getitem main_task (key "key") ;;
  md_dict <- md_dict_of fields ;;
  attach_list <- attach_list_of fields ;;
  sub_task_list <- sub_task_list_of json_result ;;
  Ok {| x_main_task := main_task; x_file_name := file_name;
        x_md_dict := md_dict; x_attach_list := attach_list;
        x_sub_task_list := sub_task_list |}.

(** Lines 129-142: the arguments are evaluated in the order written,
    then [create_meta_file] is called. *)
Definition main_meta_of (record_id md_file_name main_task md_dict : value)
  : result pystr :=
  title <- py_getitem md_dict (key "summary") ;;
  original_name <- py_getitem md_dict (key "summary") ;;
  self <- py_getitem main_task (key "self") ;;
  dir <- py_add self (key "/") ;;
  original_path <- py_add dir md_file_name ;;
  create_meta_file
    {| level := Some (VInt 0);
       title := Some title;
       file_name := Some md_file_name;
       file_record_id := Some record_id;
       file_original_name := Some original_name;
       file_original_path := Some original_path;
       source := Some (key "jira-iwpb");
       value_stream := Some (VStr []);
       categories := Some (VStr []);
       parent_file_name := Some VNone;
       attachment_type := Some (key "file");
       owner := Some (VStr []) |}.

(** Lines 77-143, with the two locals bound by lines 75-76. *)
Definition proc_task_body (record_id md_file_name json_result : value)
  (is_main_task : bool) : result (pystr * pystr * value) :=
  x <- extract json_result is_main_task ;;
  main_md_content <-
    create_md_file (x_md_dict x) (x_attach_list x) (x_sub_task_list x) ;;
  main_meta_content <-
    main_meta_of record_id md_file_name (x_main_task x) (x_md_dict x) ;;
  Ok (main_md_content, main_meta_content, x_file_name x).

(** [proc_task(json_result, is_main_task)], run against the random
    source [w]. *)
Definition proc_task (json_result : value) (is_main_task : bool) (w : entropy)
  : result (pystr * pystr * value) * entropy :=
  let (record_id, w') := uuid4 w in
  (md_file_name <- py_add record_id (key ".md") ;;
   proc_task_body record_id md_file_name json_result is_main_task,
   w').

End Program.

(** ** [json.loads] *)

(** The decoder the round-trip property of the metadata text refers to.
    It yields [None] where [json.loads] raises [JSONDecodeError], and
    also on a number with a fraction or an exponent, a float, which
    [value] does not hold. *)

Definition is_json_ws (c : N) : bool :=
  N.eqb c 32 || N.eqb c 9 || N.eqb c 10 || N.eqb c 13.

Fixpoint skip_ws (s : pystr) : pystr :=
  match s with
  | c :: rest => if is_json_ws c then skip_ws rest else s
  | [] => []
  end.

Definition hex_value (c : N) : option N :=
  if N.leb 48 c && N.leb c 57 then Some (N.sub c 48)
  else if N.leb 97 c && N.leb c 102 then Some (N.sub c 87)
  else if N.leb 65 c && N.leb c 70 then Some (N.sub c 55)
  else None.

Definition hex4_value (h1 h2 h3 h4 : N) : option N :=
  match hex_value h1, hex_value h2, hex_value h3, hex_value h4 with
  | Some a, Some b, Some c, Some d =>
      Some (N.add (N.mul (N.add (N.mul (N.add (N.mul a 16) b) 16) c) 16) d)
  | _, _, _, _ => None
  end.

Definition is_high_surrogate (u : N) : bool := N.leb 55296 u && N.leb u 56319.
Definition is_low_surrogate (u : N) : bool := N.leb 56320 u && N.leb u 57343.

Definition surrogate_pair (hi lo : N) : N :=
  N.add 65536 (N.lor (N.shiftl (N.sub hi 55296) 10) (N.sub lo 56320)).

Definition simple_escape (e : N) : option N :=
  if N.eqb e DQUOTE then Some DQUOTE
  else if N.eqb e BACKSLASH then Some BACKSLASH
  else if N.eqb e 47 then Some 47%N
  else if N.eqb e 98 then Some 8%N
  else if N.eqb e 102 then Some 12%N
  else if N.eqb e 110 then Some 10%N
  else if N.eqb e 114 then Some 13%N
  else if N.eqb e 116 then Some 9%N
  else None.

Definition cons_char (c : N) (r : option (pystr * pystr))
  : option (pystr * pystr) :=
  match r with
  | Some (s, rest) => Some (c :: s, rest)
  | None => None
  end.

(** The body of a string, read from just after its opening quote up to
    the closing one (strict mode: a raw control character is an error). *)
Fixpoint scan_string (s : pystr) : option (pystr * pystr) :=
  match s with
  | [] => None
  | c :: rest =>
      if N.eqb c DQUOTE then Some ([], rest)
      else if N.eqb c BACKSLASH then
        match rest with
        | [] => None
        | e :: rest1 =>
            if N.eqb e 117 then
              match rest1 with
              | h1 :: h2 :: h3 :: h4 :: rest2 =>
                  match hex4_value h1 h2 h3 h4 with
                  | None => None
                  | Some uni =>
                      if is_high_surrogate uni then
                        match rest2 with
                        | b :: u :: g1 :: g2 :: g3 :: g4 :: rest3 =>
                            match hex4_value g1 g2 g3 g4 with
                            | Some uni2 =>
                                if N.eqb b BACKSLASH && N.eqb u 117
                                   && is_low_surrogate uni2
                                then cons_char (surrogate_pair uni uni2)
                                       (scan_string rest3)
                                else cons_char uni (scan_string rest2)
                            | None => cons_char uni (scan_string rest2)
                            end
                        | _ => cons_char uni (scan_string rest2)
                        end
                      else cons_char uni (scan_string rest2)
                  end
              | _ => None
              end
            else
              match simple_escape e with
              | Some c' => cons_char c' (scan_string rest1)
              | None => None
              end
        end
      else if N.ltb c 32 then None
      else cons_char c (scan_string rest)
  end.

Fixpoint scan_digits (acc : N) (s : pystr) : N * pystr :=
  match s with
  | c :: rest =>
      if N.leb 48 c && N.leb c 57
      then scan_digits (N.add (N.mul acc 10) (N.sub c 48)) rest
      else (acc, s)
  | [] => (acc, [])
  end.

(** Does a fraction or an exponent follow the integer part? *)
Definition float_tail (s : pystr) : bool :=
  match s with
  | c :: d :: rest =>
      if N.eqb c 46 then N.leb 48 d && N.leb d 57
      else if N.eqb c 101 || N.eqb c 69 then
        (N.leb 48 d && N.leb d 57)
        || ((N.eqb d 43 || N.eqb d 45)
            && match rest with
               | d' :: _ => N.leb 48 d' && N.leb d' 57
               | [] => false
               end)
      else false
  | _ => false
  end.

(** An unsigned integer literal: [0], or digits not starting with [0]. *)
Definition scan_nat (s : pystr) : option (N * pystr) :=
  match s with
  | c :: rest =>
      if N.eqb c 48 then
        if float_tail rest then None else Some (0%N, rest)
      else if N.leb 49 c && N.leb c 57 then
        let (n, rest') := scan_digits (N.sub c 48) rest in
        if float_tail rest' then None else Some (n, rest')
      else None
  | [] => None
  end.

Fixpoint strip_prefix (p s : pystr) : option pystr :=
  match p with
  | [] => Some s
  | c :: p' =>
      match s with
      | c' :: s' => if N.eqb c c' then strip_prefix p' s' else None
      | [] => None
      end
  end.

(** [d[k] = v]: a key already present keeps its position. *)
Fixpoint dict_set (k : pystr) (v : value) (d : list (pystr * value))
  : list (pystr * value) :=
  match d with
  | [] => [(k, v)]
  | (k', v') :: d' =>
      if pystr_eqb k k' then (k', v) :: d' else (k', v') :: dict_set k v d'
  end.

(** [dict(pairs)]. *)
Definition dict_of_pairs (pairs : list (pystr * value)) : list (pystr * value) :=
  fold_left (fun d kv => dict_set (fst kv) (snd kv) d) pairs [].

(** One JSON value at the head of [s]; [scan_members] reads the members
    of an object from just after the opening quote of a key,
    [scan_elements] the elements of an array.  [fuel] bounds the number
    of nested calls. *)
Fixpoint scan_once (fuel : nat) (s : pystr) : option (value * pystr) :=
  match fuel with
  | O => None
  | S fuel' =>
      match s with
      | [] => None
      | c :: rest =>
          if N.eqb c DQUOTE then
            match scan_string rest with
            | Some (str, r) => Some (VStr str, r)
            | None => None
            end
          else if N.eqb c 123 then
            match skip_ws rest with
            | c1 :: r1 =>
                if N.eqb c1 125 then Some (VDict [], r1)
                else if N.eqb c1 DQUOTE then
                  match scan_members fuel' r1 with
                  | Some (pairs, r) => Some (VDict (dict_of_pairs pairs), r)
                  | None => None
                  end
                else None
            | [] => None
            end
          else if N.eqb c 91 then
            match skip_ws rest with
            | c1 :: r1 =>
                if N.eqb c1 93 then Some (VList [], r1)
                else
                  match scan_elements fuel' (c1 :: r1) with
                  | Some (items, r) => Some (VList items, r)
                  | None => None
                  end
            | [] => None
            end
          else if N.eqb c 110 then
            match strip_prefix (lit "null") s with
            | Some r => Some (VNone, r)
            | None => None
            end
          else if N.eqb c 116 then
            match strip_prefix (lit "true") s with
            | Some r => Some (VBool true, r)
            | None => None
            end
          else if N.eqb c 102 then
            match strip_prefix (lit "false") s with
            | Some r => Some (VBool false, r)
            | None => None
            end
          else if N.eqb c 45 then
            match scan_nat rest with
            | Some (n, r) => Some (VInt (Z.opp (Z.of_N n)), r)
            | None => None
            end
          else
            match scan_nat s with
            | Some (n, r) => Some (VInt (Z.of_N n), r)
            | None => None
            end
      end
  end
with scan_members (fuel : nat) (s : pystr)
  : option (list (pystr * value) * pystr) :=
  match fuel with
  | O => None
  | S fuel' =>
      match scan_string s with
      | None => None
      | Some (k, r) =>
          match skip_ws r with
          | c :: r1 =>
              if N.eqb c 58 then
                match scan_once fuel' (skip_ws r1) with
                | None => None
                | Some (v, r2) =>
                    match skip_ws r2 with
                    | c2 :: r3 =>
                        if N.eqb c2 125 then Some ([(k, v)], r3)
                        else if N.eqb c2 44 then
                          match skip_ws r3 with
                          | c3 :: r4 =>
                              if N.eqb c3 DQUOTE then
                                match scan_members fuel' r4 with
                                | Some (kvs, r5) => Some ((k, v) :: kvs, r5)
                                | None => None
                                end
                              else None
                          | [] => None
                          end
                        else None
                    | [] => None
                    end
                end
              else None
          | [] => None
          end
      end
  end
with scan_elements (fuel : nat) (s : pystr) : option (list value * pystr) :=
  match fuel with
  | O => None
  | S fuel' =>
      match scan_once fuel' s with
      | None => None
      | Some (v, r) =>
          match skip_ws r with
          | c :: r1 =>
              if N.eqb c 93 then Some ([v], r1)
              else if N.eqb c 44 then
                match scan_elements fuel' (skip_ws r1) with
                | Some (vs, r2) => Some (v :: vs, r2)
                | None => None
                end
              else None
          | [] => None
          end
      end
  end.

(** [json.loads(s)]: one value, surrounded by optional white space. *)
Definition json_loads (s : pystr) : option value :=
  match scan_once (S (List.length s)) (skip_ws s) with
  | Some (v, rest) =>
      match skip_ws rest with
      | [] => Some v
      | _ => None
      end
  | None => None
  end.

(** ** The derivation rules in the words of the specification *)

(** "Split on line breaks": every line-break character ends a line, and
    what follows the last one is a line as well. *)
Fixpoint split_on_breaks (s : pystr) : list pystr :=
  match s with
  | [] => [[]]
  | c :: rest =>
      if is_linebreak c then [] :: split_on_breaks rest
      else match split_on_breaks rest with
           | line :: lines => (c :: line) :: lines
           | [] => [[c]]
           end
  end.

(** The lines of a text whose first line continues [p]. *)
Definition with_prefix (p : pystr) (lines : list pystr) : list pystr :=
  match lines with
  | line :: lines' => (p ++ line) :: lines'
  | [] => [p]
  end.

(** "Blank / whitespace-only" lines. *)
Definition is_blank (line : pystr) : bool := forallb is_space line.

Definition spec_nonblank_lines (s : pystr) : list pystr :=
  filter (fun line => negb (is_blank line)) (split_on_breaks s).

(** "split on line breaks, drop blank/whitespace-only lines, rejoin
    remaining lines with a single space". *)
Definition spec_description (s : pystr) : pystr :=
  join (lit " ") (spec_nonblank_lines s).

(** "split on line breaks, drop blank lines, rejoin with a line break". *)
Definition spec_acceptance_criteria (s : pystr) : pystr :=
  join [LF] (spec_nonblank_lines s).

(** A section of the report: nothing for an empty list, else the header
    followed by the blocks. *)
Definition section_text (header : pystr) (blocks : list pystr) : pystr :=
  match blocks with
  | [] => []
  | _ => header ++ List.concat blocks
  end.

(** [s.startswith(p)] and [p in s]. *)
Fixpoint starts_with (p s : pystr) : bool :=
  match p, s with
  | [], _ => true
  | c :: p', c' :: s' => N.eqb c c' && starts_with p' s'
  | _ :: _, [] => false
  end.

Fixpoint contains (p s : pystr) : bool :=
  starts_with p s
  || match s with
     | [] => false
     | _ :: s' => contains p s'
     end.

(** A flat mapping whose summary is the text of the attachment header. *)
Definition header_summary_md_dict : value :=
  VDict
    [ (lit "summary", VStr (lit "## Attachment"));
      (lit "description", VStr (lit "line1 line2"));
      (lit "status", VStr (lit "Open"));
      (lit "updated", VStr (lit "2024-01-02"));
      (lit "issuetype", VStr (lit "Bug"));
      (lit "labels", VStr (lit "a, b"));
      (lit "marketAffectedFieldName", VStr (lit "EU"));
      (lit "acceptanceCriteriaFieldName", VStr []) ].

(** "[summary]/[key] from the issue, [url] from its self-reference". *)
Definition drawn_from (sub entry : value) : Prop :=
  exists sd fd summary k url,
    sub = VDict sd /\
    dict_lookup (lit "fields") sd = Some (VDict fd) /\
    dict_lookup (lit "summary") fd = Some summary /\
    dict_lookup (lit "key") sd = Some k /\
    dict_lookup (lit "self") sd = Some url /\
    entry = VDict [ (lit "summary", summary); (lit "key", k);
                    (lit "url", url) ].

(** ** Documents with a field taken out *)

Fixpoint dict_remove (k : pystr) (d : list (pystr * value))
  : list (pystr * value) :=
  match d with
  | [] => []
  | (k', v) :: d' =>
      if pystr_eqb k k' then dict_remove k d' else (k', v) :: dict_remove k d'
  end.

Fixpoint dict_update (k : pystr) (f : value -> value)
  (d : list (pystr * value)) : list (pystr * value) :=
  match d with
  | [] => []
  | (k', v) :: d' =>
      if pystr_eqb k k' then (k', f v) :: d' else (k', v) :: dict_update k f d'
  end.





(** ** Metadata arguments that are text or [None] *)

Definition text_arg (a : option pystr) : value :=
  match a with
  | Some s => VStr s
  | None => VNone
  end.

(** A value that is text or [None]. *)
Definition is_text (v : value) : bool :=
  match v with
  | VNone | VStr _ => true
  | _ => false
  end.

(** The JSON text of such a value. *)
Definition text_json (v : value) : pystr :=
  match v with
  | VStr s => encode_basestring s
  | _ => lit "null"
  end.

(** One member of a JSON object, without the opening quote of its key. *)
Definition member_body (kv : pystr * value) : pystr :=
  flat_map escape_char (fst kv) ++ DQUOTE :: lit ": " ++ text_json (snd kv).

(** The members that follow the first one, each after its separator. *)
Fixpoint more_members (d : list (pystr * value)) : pystr :=
  match d with
  | [] => []
  | kv :: d' => lit ", " ++ DQUOTE :: member_body kv ++ more_members d'
  end.

(** The call [create_meta_file(level=..., ..., owner=...)] with every
    argument text or [None]. *)
Definition text_kwargs
  (a_level a_title a_file_name a_file_record_id a_file_original_name
   a_file_original_path a_source a_value_stream a_categories
   a_parent_file_name a_attachment_type a_owner : option pystr)
  : meta_kwargs :=
  {| level := Some (text_arg a_level);
     title := Some (text_arg a_title);
     file_name := Some (text_arg a_file_name);
     file_record_id := Some (text_arg a_file_record_id);
     file_original_name := Some (text_arg a_file_original_name);
     file_original_path := Some (text_arg a_file_original_path);
     source := Some (text_arg a_source);
     value_stream := Some (text_arg a_value_stream);
     categories := Some (text_arg a_categories);
     parent_file_name := Some (text_arg a_parent_file_name);
     attachment_type := Some (text_arg a_attachment_type);
     owner := Some (text_arg a_owner) |}.

Definition occurrences (c : N) (s : pystr) : nat := count_occ N.eq_dec s c.

Definition value_occurrences (c : N) (v : value) : nat :=
  match v with
  | VStr s => occurrences c s
  | _ => O
  end.

Definition is_ascii (c : N) : bool := N.ltb c 128.

(** A mapping all of whose values are text or [None]. *)
Definition all_text (d : list (pystr * value)) : Prop :=
  Forall (fun kv => is_text (snd kv) = true) d.

(** Occurrences of [c] in the keys and text values of a mapping. *)
Definition members_occurrences (c : N) (d : list (pystr * value)) : nat :=
  fold_right
    (fun kv n => occurrences c (fst kv) + value_occurrences c (snd kv) + n)
    0 d.

Definition arg_occurrences (c : N) (a : option pystr) : nat :=
  match a with
  | Some s => occurrences c s
  | None => O
  end.

(** ** The metadata text of a call without arguments *)

Definition quoted (s : string) : pystr := DQUOTE :: lit s ++ [DQUOTE].

Definition default_meta_text : pystr :=
  lit "{" ++ quoted "level" ++ lit ": 0, "
  ++ quoted "title" ++ lit ": null, "
  ++ quoted "file_name" ++ lit ": null, "
  ++ quoted "file_record_id" ++ lit ": null, "
  ++ quoted "file_original_name" ++ lit ": null, "
  ++ quoted "file_original_path" ++ lit ": null, "
  ++ quoted "source" ++ lit ": null, "
  ++ quoted "value_stream" ++ lit ": null, "
  ++ quoted "categories" ++ lit ": null, "
  ++ quoted "parent_file_name" ++ lit ": null, "
  ++ quoted "attachment_type" ++ lit ": " ++ quoted "file" ++ lit ", "
  ++ quoted "owner" ++ lit ": null}".

Definition default_meta_mapping : value :=
  VDict
    [ (lit "level", VInt 0);
      (lit "title", VNone);
      (lit "file_name", VNone);
      (lit "file_record_id", VNone);
      (lit "file_original_name", VNone);
      (lit "file_original_path", VNone);
      (lit "source", VNone);
      (lit "value_stream", VNone);
      (lit "categories", VNone);
      (lit "parent_file_name", VNone);
      (lit "attachment_type", VStr (lit "file"));
      (lit "owner", VNone) ].

(** ** Sample documents *)

Definition dict (l : list (string * value)) : value :=
  VDict (map (fun kv => (lit (fst kv), snd kv)) l).

Definition sample_description : pystr :=
  lit "line1" ++ [LF; LF] ++ lit "line2" ++ [LF; 32%N].

Definition sample_fields : value :=
  dict [ ("summary", key "Login fails");
         ("description", VStr sample_description);
         ("status", dict [("name", key "Open")]);
         ("updated", key "2024-01-02");
         ("issuetype", dict [("name", key "Bug")]);
         ("labels", VList [key "a"; key "b"]);
         ("customfield_27708", VNone);
         ("customfield_26615", VList [dict [("value", key "EU")]]);
         ("attachment",
          VList [dict [ ("id", key "1"); ("filename", key "f.png");
                        ("created", key "2024-01-01"); ("size", VInt 100);
                        ("content", key "http://x") ]]) ]%string.

(** The same fields, exported without the acceptance-criteria field. *)
Definition sample_fields_no_criteria : value :=
  dict [ ("summary", key "Login fails");
         ("description", VStr sample_description);
         ("status", dict [("name", key "Open")]);
         ("updated", key "2024-01-02");
         ("issuetype", dict [("name", key "Bug")]);
         ("labels", VList [key "a"; key "b"]);
         ("customfield_26615", VNone);
         ("attachment", VList []) ]%string.

Definition sample_main : value :=
  dict [ ("fields", sample_fields); ("key", key "JA-1");
         ("self", key "http://jira/1") ]%string.

Definition sample_sub : value :=
  dict [ ("fields", dict [("summary", key "Write test")]);
         ("key", key "JA-2"); ("self", key "http://jira/2") ]%string.

Definition sample_document : value :=
  dict [ ("issues", VList [sample_main; sample_sub]) ]%string.

(** What the extraction makes of [sample_document]. *)
Definition sample_md_dict : value :=
  dict [ ("summary", key "Login fails");
         ("description", key "line1 line2");
         ("status", key "Open");
         ("updated", key "2024-01-02");
         ("issuetype", key "Bug");
         ("labels", key "a, b");
         ("marketAffectedFieldName", key "EU");
         ("acceptanceCriteriaFieldName", VStr []) ]%string.

Definition sample_attach : value :=
  dict [ ("file_id", key "1"); ("file_name", key "f.png");
         ("created", key "2024-01-01"); ("size", VInt 100);
         ("url", key "http://x") ]%string.

Definition sample_sub_task : value :=
  dict [ ("summary", key "Write test"); ("key", key "JA-2");
         ("url", key "http://jira/2") ]%string.

Definition sample_entropy : entropy :=
  {| pool := fun n => N.mul 1234567890123456789012345678901234567
                        (N.of_nat (S n));
     drawn := O |}.

Definition other_entropy : entropy :=
  {| pool := pool sample_entropy; drawn := 1 |}.

Definition sample_repr (v : value) : pystr := lit "[...]".

(** * The rest of the program *)

From Stdlib Require DecimalFacts DecimalPos.

(** ** [proc] *)

Section Caller.

Variable container_repr : value -> pystr.

(** [proc(json_result)] (lines 146-149): the three results of
    [proc_task] are unpacked and dropped; the function returns [None]. *)
Definition proc (json_result : value) (w : entropy) : result value * entropy :=
  let (r, w') := proc_task container_repr json_result true w in
  (triple <- r ;;
   let '(main_md_content, main_meta_content, md_file_name) := triple in
   Ok VNone,
   w').

End Caller.

(** ** Templates read as text and fields *)

(** A piece of a format string: literal text, or a replacement field. *)
Inductive segment : Type :=
| Text (t : pystr)
| Field (name : pystr).

Definition segment_text (s : segment) : pystr :=
  match s with
  | Text t => t
  | Field name => 123%N :: name ++ [125%N]
  end.

(** The format string made of the pieces. *)
Definition template_of (segs : list segment) : pystr :=
  flat_map segment_text segs.

Definition field_names (segs : list segment) : list pystr :=
  flat_map (fun s => match s with Text _ => [] | Field n => [n] end) segs.

(** Text without braces. *)
Definition plain (t : pystr) : bool :=
  forallb (fun c => negb (N.eqb c 123) && negb (N.eqb c 125)) t.

(** Pieces whose texts have no braces and whose names are keywords. *)
Definition well_formed_segment (s : segment) : bool :=
  match s with
  | Text t => plain t
  | Field name => forallb is_name_char name && negb (forallb is_digit name)
  end.

Definition main_task_segments : list segment :=
  [ Text (lit "# Summary" ++ [LF]); Field (lit "summary");
    Text ([LF] ++ lit "## Description" ++ [LF]); Field (lit "description");
    Text ([LF] ++ lit "## Task Info" ++ [LF] ++ lit "* Status: ");
    Field (lit "status");
    Text ([LF] ++ lit "* Updated: "); Field (lit "updated");
    Text ([LF] ++ lit "* Issuetype: "); Field (lit "issuetype");
    Text ([LF] ++ lit "## Labels" ++ [LF]); Field (lit "labels");
    Text ([LF] ++ lit "## Market Affected Field Name" ++ [LF]);
    Field (lit "marketAffectedFieldName");
    Text ([LF] ++ lit "## Acceptance Criteria Field Name" ++ [LF]);
    Field (lit "acceptanceCriteriaFieldName");
    Text ([LF] ++ lit "---" ++ [LF]) ].

Definition attachment_segments : list segment :=
  [ Field (lit "file_name");
    Text ([LF] ++ lit "* ID: "); Field (lit "file_id");
    Text ([LF] ++ lit "* Created: "); Field (lit "created");
    Text ([LF] ++ lit "* File Size: "); Field (lit "size");
    Text ([LF] ++ lit "* Download URL: "); Field (lit "url");
    Text ([LF] ++ lit "---" ++ [LF]) ].

Definition sub_tasks_segments : list segment :=
  [ Field (lit "summary");
    Text ([LF] ++ lit "* Key: "); Field (lit "key");
    Text ([LF] ++ lit "* URL: "); Field (lit "url");
    Text ([LF] ++ lit "---" ++ [LF]) ].

(** The first field name of the template that the mapping lacks. *)
Definition first_missing (d : list (pystr * value)) (segs : list segment)
  : option pystr :=
  find (fun n => match dict_lookup n d with Some _ => false | None => true end)
    (field_names segs).

(** The pieces with every field replaced by the text of its value
    ([str(v)] as given by [to_text]); a missing value leaves nothing. *)
Fixpoint filled (to_text : value -> pystr) (d : list (pystr * value))
  (segs : list segment) : pystr :=
  match segs with
  | [] => []
  | Text t :: rest => t ++ filled to_text d rest
  | Field n :: rest =>
      match dict_lookup n d with
      | Some v => to_text v ++ filled to_text d rest
      | None => filled to_text d rest
      end
  end.

(** Filling the pieces one after the other, as [format] does. *)
Fixpoint fill (to_text : value -> pystr) (d : list (pystr * value))
  (segs : list segment) : result pystr :=
  match segs with
  | [] => Ok []
  | Text t :: rest => r <- fill to_text d rest ;; Ok (t ++ r)
  | Field n :: rest =>
      v <- field_value d n ;; r <- fill to_text d rest ;; Ok (to_text v ++ r)
  end.

(** ** Texts and documents used by the further properties *)

Definition no_linebreak (s : pystr) : bool :=
  forallb (fun c => negb (is_linebreak c)) s.

(** The document with the attribute at path [p] of its main issue set to
    [v] (the attribute being present). *)
Fixpoint with_path (p : list pystr) (v : value) (doc : value) : value :=
  match p with
  | [] => v
  | k :: p' =>
      match doc with
      | VDict d => VDict (dict_update k (with_path p' v) d)
      | _ => doc
      end
  end.

Definition with_field (p : list pystr) (v : value) (json_result : value)
  : value :=
  match json_result with
  | VDict d =>
      VDict (dict_update (lit "issues")
               (fun issues =>
                  match issues with
                  | VList (main :: subs) => VList (with_path p v main :: subs)
                  | _ => issues
                  end) d)
  | _ => json_result
  end.

Definition is_str (v : value) : bool :=
  match v with
  | VStr _ => true
  | _ => false
  end.

Definition sample_criteria : pystr :=
  lit "Given a user" ++ [CR; LF; LF; 32%N; LF] ++ lit "  then login works"
  ++ [LF].

Definition sample_criteria_fields : value :=
  dict [ ("customfield_27708", VStr sample_criteria) ]%string.

(** ** JSON values and their text *)

(** What [json.dumps] can write: anything but a [UUID] object, at any
    depth. *)
Fixpoint serialisable (v : value) : bool :=
  match v with
  | VList l => forallb serialisable l
  | VDict d => forallb (fun kv => serialisable (snd kv)) d
  | VUUID _ => false
  | _ => true
  end.

Fixpoint keys_distinct (d : list (pystr * value)) : bool :=
  match d with
  | [] => true
  | (k, _) :: d' =>
      negb (existsb (fun kv => pystr_eqb k (fst kv)) d') && keys_distinct d'
  end.

(** The invariant of a Python [dict], at any depth: no key twice. *)
Fixpoint distinct_keys (v : value) : bool :=
  match v with
  | VList l => forallb distinct_keys l
  | VDict d =>
      keys_distinct d && forallb (fun kv => distinct_keys (snd kv)) d
  | _ => true
  end.

(** The text [json.dumps] writes for a serialisable value. *)
Fixpoint json_text (v : value) : pystr :=
  match v with
  | VNone => lit "null"
  | VBool true => lit "true"
  | VBool false => lit "false"
  | VInt z => int_str z
  | VStr s => encode_basestring s
  | VList l => lit "[" ++ join (lit ", ") (map json_text l) ++ lit "]"
  | VDict d =>
      lit "{"
      ++ join (lit ", ")
           (map (fun kv => encode_basestring (fst kv) ++ lit ": "
                           ++ json_text (snd kv)) d)
      ++ lit "}"
  | VUUID _ => []
  end.

(** The nesting and length of a value, which bound the work of the
    decoder. *)
Fixpoint json_size (v : value) : nat :=
  match v with
  | VList l => S (list_sum (map (fun x => S (json_size x)) l))
  | VDict d => S (list_sum (map (fun kv => S (json_size (snd kv))) d))
  | _ => 1
  end.

(** What may follow a number in a JSON text: not a digit, nor the start
    of a fraction or an exponent. *)
Definition ends_number (rest : pystr) : bool :=
  match rest with
  | [] => true
  | c :: _ =>
      negb (N.leb 48 c && N.leb c 57) && negb (N.eqb c 46)
      && negb (N.eqb c 101) && negb (N.eqb c 69)
  end.

(** The characters of a decimal numeral, and the number its digits spell
    after [acc]. *)
Fixpoint digits_of (d : Decimal.uint) : pystr :=
  match d with
  | Decimal.Nil => []
  | Decimal.D0 d' => 48%N :: digits_of d'
  | Decimal.D1 d' => 49%N :: digits_of d'
  | Decimal.D2 d' => 50%N :: digits_of d'
  | Decimal.D3 d' => 51%N :: digits_of d'
  | Decimal.D4 d' => 52%N :: digits_of d'
  | Decimal.D5 d' => 53%N :: digits_of d'
  | Decimal.D6 d' => 54%N :: digits_of d'
  | Decimal.D7 d' => 55%N :: digits_of d'
  | Decimal.D8 d' => 56%N :: digits_of d'
  | Decimal.D9 d' => 57%N :: digits_of d'
  end.

Fixpoint uint_value (acc : N) (d : Decimal.uint) : N :=
  match d with
  | Decimal.Nil => acc
  | Decimal.D0 d' => uint_value (N.add (N.mul acc 10) 0) d'
  | Decimal.D1 d' => uint_value (N.add (N.mul acc 10) 1) d'
  | Decimal.D2 d' => uint_value (N.add (N.mul acc 10) 2) d'
  | Decimal.D3 d' => uint_value (N.add (N.mul acc 10) 3) d'
  | Decimal.D4 d' => uint_value (N.add (N.mul acc 10) 4) d'
  | Decimal.D5 d' => uint_value (N.add (N.mul acc 10) 5) d'
  | Decimal.D6 d' => uint_value (N.add (N.mul acc 10) 6) d'
  | Decimal.D7 d' => uint_value (N.add (N.mul acc 10) 7) d'
  | Decimal.D8 d' => uint_value (N.add (N.mul acc 10) 8) d'
  | Decimal.D9 d' => uint_value (N.add (N.mul acc 10) 9) d'
  end.

(** The metadata mapping lines 129-142 ask for. *)
Definition main_meta_mapping (record_id md_file_name summary : value)
  (self : pystr) (file : pystr) : value :=
  VDict
    [ (lit "level", VInt 0);
      (lit "title", summary);
      (lit "file_name", md_file_name);
      (lit "file_record_id", record_id);
      (lit "file_original_name", summary);
      (lit "file_original_path", VStr (self ++ lit "/" ++ file));
      (lit "source", key "jira-iwpb");
      (lit "value_stream", VStr []);
      (lit "categories", VStr []);
      (lit "parent_file_name", VNone);
      (lit "attachment_type", key "file");
      (lit "owner", VStr []) ].

(** Not one of the control characters below U+0020. *)
Definition no_control (c : N) : bool := N.leb 32 c.

(** ** Metadata arguments without parts *)

(** Integers below this bound have at most 4300 digits, which every
    version of the interpreter converts to and from decimal text. *)
Definition int_text_limit : Z := 10 ^ 4300.

(** [None], a truth value, text, or such an integer. *)
Definition scalar (v : value) : bool :=
  match v with
  | VNone | VBool _ | VStr _ => true
  | VInt z => Z.ltb (Z.abs z) int_text_limit
  | VList _ | VDict _ | VUUID _ => false
  end.

(** An argument that is left out or a scalar. *)
Definition scalar_arg (a : option value) : bool :=
  match a with
  | Some v => scalar v
  | None => true
  end.

Definition scalar_kwargs (kw : meta_kwargs) : bool :=
  scalar_arg (level kw) && scalar_arg (title kw)
  && scalar_arg (file_name kw) && scalar_arg (file_record_id kw)
  && scalar_arg (file_original_name kw)
  && scalar_arg (file_original_path kw) && scalar_arg (source kw)
  && scalar_arg (value_stream kw) && scalar_arg (categories kw)
  && scalar_arg (parent_file_name kw) && scalar_arg (attachment_type kw)
  && scalar_arg (owner kw).

(** An argument that is a [UUID] object. *)
Definition uuid_arg (a : option value) : bool :=
  match a with
  | Some (VUUID _) => true
  | _ => false
  end.

Definition some_uuid (kw : meta_kwargs) : bool :=
  uuid_arg (level kw) || uuid_arg (title kw)
  || uuid_arg (file_name kw) || uuid_arg (file_record_id kw)
  || uuid_arg (file_original_name kw)
  || uuid_arg (file_original_path kw) || uuid_arg (source kw)
  || uuid_arg (value_stream kw) || uuid_arg (categories kw)
  || uuid_arg (parent_file_name kw) || uuid_arg (attachment_type kw)
  || uuid_arg (owner kw).

Definition scalar_or_uuid (a : option value) : bool :=
  scalar_arg a || uuid_arg a.

Definition scalar_or_uuid_kwargs (kw : meta_kwargs) : bool :=
  scalar_or_uuid (level kw) && scalar_or_uuid (title kw)
  && scalar_or_uuid (file_name kw) && scalar_or_uuid (file_record_id kw)
  && scalar_or_uuid (file_original_name kw)
  && scalar_or_uuid (file_original_path kw) && scalar_or_uuid (source kw)
  && scalar_or_uuid (value_stream kw) && scalar_or_uuid (categories kw)
  && scalar_or_uuid (parent_file_name kw)
  && scalar_or_uuid (attachment_type kw) && scalar_or_uuid (owner kw).

(** A mapping all of whose values are scalars. *)
Definition all_scalar (d : list (pystr * value)) : Prop :=
  Forall (fun kv => scalar (snd kv) = true) d.

(** One member of the JSON text of a mapping, without the opening quote
    of its key, and the members after the first, each after its
    separator. *)
Definition member_text (kv : pystr * value) : pystr :=
  flat_map escape_char (fst kv) ++ DQUOTE :: lit ": " ++ json_text (snd kv).

Fixpoint next_members (d : list (pystr * value)) : pystr :=
  match d with
  | [] => []
  | kv :: d' => lit ", " ++ DQUOTE :: member_text kv ++ next_members d'
  end.

(** A call of [create_meta_file] with one argument a [UUID] object. *)
Definition sample_uuid_kwargs : meta_kwargs :=
  {| level := None; title := Some (key "Login page");
     file_name := Some (key "a.md");
     file_record_id := Some (VUUID 7);
     file_original_name := None; file_original_path := None;
     source := None; value_stream := None; categories := None;
     parent_file_name := None; attachment_type := None; owner := None |}.

(** A call with integers, truth values, text and [None]. *)
Definition sample_scalar_kwargs : meta_kwargs :=
  {| level := Some (VInt (-12)); title := Some (key "Login page");
     file_name := Some (VBool true);
     file_record_id := Some (VInt 1048576);
     file_original_name := Some VNone; file_original_path := None;
     source := Some (VStr [233%N; 10%N; 34%N]); value_stream := None;
     categories := None; parent_file_name := None;
     attachment_type := None; owner := Some (VBool false) |}.

(** ** Attachment entries *)

(** The entry lines 108-109 build from one element of the attachment
    list: [id], [filename] and [content] are renamed to [file_id],
    [file_name] and [url]. *)
Definition renamed_from (info entry : value) : Prop :=
  exists d id filename created size content,
    info = VDict d /\
    dict_lookup (lit "id") d = Some id /\
    dict_lookup (lit "filename") d = Some filename /\
    dict_lookup (lit "created") d = Some created /\
    dict_lookup (lit "size") d = Some size /\
    dict_lookup (lit "content") d = Some content /\
    entry = VDict [ (lit "file_id", id); (lit "file_name", filename);
                    (lit "created", created); (lit "size", size);
                    (lit "url", content) ].

(** The attachment of [sample_fields]. *)
Definition sample_attach_info : value :=
  dict [ ("id", key "1"); ("filename", key "f.png");
         ("created", key "2024-01-01"); ("size", VInt 100);
         ("content", key "http://x") ]%string.

(** * Properties *)

(** ** The record identifier (lines 75-76) *)

Lemma uuid4_is_uuid (w : entropy) :
  exists u, fst (uuid4 w) = VUUID u.
Proof. unfold uuid4, urandom16. simpl. eexists. reflexivity. Qed.

Lemma py_add_uuid (u : N) (v : value) : py_add (VUUID u) v = Raise TypeError.
Proof. reflexivity. Qed.

Lemma proc_task_unfold (repr : value -> pystr) (json_result : value)
  (is_main_task : bool) (w : entropy) :
  fst (proc_task repr json_result is_main_task w) =
  (md_file_name <- py_add (fst (uuid4 w)) (key ".md") ;;
   proc_task_body repr (fst (uuid4 w)) md_file_name json_result is_main_task).
Proof. unfold proc_task. destruct (uuid4 w). reflexivity. Qed.

Lemma proc_task_type_error (repr : value -> pystr) (json_result : value)
  (is_main_task : bool) (w : entropy) :
  fst (proc_task repr json_result is_main_task w) = Raise TypeError.
Proof.
  rewrite proc_task_unfold.
  destruct (uuid4_is_uuid w) as [u ->].
  reflexivity.
Qed.

(** C1 (code defect): [proc_task] never returns its triple.  For every
    input document, either entry point and every state of the random
    source, line 76 adds the [UUID] object made by [uuid4] to the text
    ['.md'], which raises [TypeError]; no file name is derived and no
    report or metadata text is produced. *)
Theorem proc_task_always_raises :
  forall (repr : value -> pystr) (json_result : value) (is_main_task : bool)
         (w : entropy),
    fst (proc_task repr json_result is_main_task w) = Raise TypeError
    /\ (forall r, fst (proc_task repr json_result is_main_task w) <> Ok r).
Proof.
  intros repr json_result is_main_task w.
  rewrite proc_task_type_error. split; [reflexivity | discriminate].
Qed.

Example proc_task_sample :
  fst (proc_task sample_repr sample_document true sample_entropy)
  = Raise TypeError.
Proof. vm_compute. reflexivity. Qed.

(** ** Lines of a text (lines 87-91) *)

Section Lines.

Lemma lstrip_nil_iff (s : pystr) : lstrip s = [] <-> is_blank s = true.
Proof.
  unfold is_blank.
  induction s as [|c s IH]; simpl.
  - tauto.
  - destruct (is_space c); simpl.
    + exact IH.
    + split; discriminate.
Qed.

Lemma is_blank_lstrip (s : pystr) : is_blank (lstrip s) = is_blank s.
Proof.
  unfold is_blank.
  induction s as [|c s IH]; simpl; [reflexivity|].
  destruct (is_space c) eqn:E; simpl.
  - exact IH.
  - rewrite E. reflexivity.
Qed.

Lemma is_blank_rev (s : pystr) : is_blank (rev s) = is_blank s.
Proof.
  unfold is_blank.
  induction s as [|c s IH]; simpl; [reflexivity|].
  rewrite forallb_app, IH. simpl.
  rewrite andb_true_r. apply andb_comm.
Qed.

Lemma str_strip_nil_iff (s : pystr) : str_strip s = [] <-> is_blank s = true.
Proof.
  unfold str_strip.
  rewrite <- (is_blank_lstrip s), <- (is_blank_rev (lstrip s)).
  rewrite <- lstrip_nil_iff.
  split; intros H.
  - apply (f_equal (@rev N)) in H. rewrite rev_involutive in H. exact H.
  - rewrite H. reflexivity.
Qed.

(** [if line.strip()] keeps exactly the lines that are not blank. *)
Lemma nonblank_not_blank (line : pystr) : nonblank line = negb (is_blank line).
Proof.
  unfold nonblank. simpl.
  destruct (str_strip line) eqn:E.
  - apply str_strip_nil_iff in E. rewrite E. reflexivity.
  - destruct (is_blank line) eqn:B; [|reflexivity].
    apply str_strip_nil_iff in B. congruence.
Qed.

Lemma split_on_breaks_cons (s : pystr) :
  exists line lines, split_on_breaks s = line :: lines.
Proof.
  destruct s as [|c s]; simpl.
  - eauto.
  - destruct (is_linebreak c); [eauto|].
    destruct (split_on_breaks s); eauto.
Qed.

Lemma with_prefix_nil (s : pystr) :
  with_prefix [] (split_on_breaks s) = split_on_breaks s.
Proof.
  destruct (split_on_breaks_cons s) as (line & lines & ->). reflexivity.
Qed.

(** The scan of [splitlines] and the plain split differ only in empty
    lines: the one between [\r] and [\n], and the one after a final
    boundary. *)
Lemma splitlines_from_spec (n : nat) :
  forall (s cur : pystr),
    List.length s <= n ->
    filter nonblank (splitlines_from cur s)
    = filter nonblank (with_prefix (rev cur) (split_on_breaks s)).
Proof.
  induction n as [|n IH]; intros s cur Hlen.
  - destruct s; [|simpl in Hlen; lia].
    simpl. destruct cur as [|c cur]; [reflexivity|].
    rewrite app_nil_r. reflexivity.
  - destruct s as [|c rest].
    + simpl. destruct cur as [|c cur]; [reflexivity|].
      rewrite app_nil_r. reflexivity.
    + simpl in Hlen.
      cbn [splitlines_from split_on_breaks].
      destruct (is_linebreak c) eqn:Hc.
      * cbn [with_prefix]. rewrite app_nil_r.
        cbn [filter]. 
        assert (Hrest : filter nonblank (splitlines_from [] rest)
                        = filter nonblank (split_on_breaks rest)).
        { rewrite (IH rest []) by lia. simpl rev.
          rewrite with_prefix_nil. reflexivity. }
        match goal with
        | |- (if _ then _ :: ?A else _) = (if _ then _ :: ?B else _) =>
            assert (Hgoal : A = B)
        end.
        { destruct (N.eqb c CR); [|exact Hrest].
          destruct rest as [|c' rest']; [exact Hrest|].
          destruct (N.eqb_spec c' LF) as [->|Hne]; [|exact Hrest].
          simpl in Hlen.
          rewrite (IH rest' []) by lia. simpl rev.
          rewrite with_prefix_nil.
          cbn [split_on_breaks]. reflexivity. }
        rewrite Hgoal. reflexivity.
      * rewrite (IH rest (c :: cur)) by lia.
        destruct (split_on_breaks_cons rest) as (line & lines & ->).
        simpl. rewrite <- app_assoc. reflexivity.
Qed.

Lemma filter_ext_bool {A} (f g : A -> bool) (l : list A) :
  (forall x, f x = g x) -> filter f l = filter g l.
Proof.
  intros H. induction l as [|x l IH]; simpl; [reflexivity|].
  rewrite H, IH. reflexivity.
Qed.

(** The lines kept by lines 87 and 89 are the non-blank lines of the
    specification. *)
Lemma nonblank_splitlines (s : pystr) :
  filter nonblank (str_splitlines s) = spec_nonblank_lines s.
Proof.
  unfold str_splitlines, spec_nonblank_lines.
  rewrite (@splitlines_from_spec (List.length s) s [] (Nat.le_refl _)).
  simpl rev. rewrite with_prefix_nil.
  apply filter_ext_bool, nonblank_not_blank.
Qed.

End Lines.

(** C5: the description derived at line 87 is the text split on line
    breaks, without its blank and whitespace-only lines, rejoined with a
    single space; the description "line1\n\nline2\n " gives
    "line1 line2". *)
Theorem description_rule :
  (forall (fields : value) (s : pystr),
      py_getitem fields (key "description") = Ok (VStr s) ->
      desc_of fields = Ok (spec_description s))
  /\ desc_of sample_fields = Ok (lit "line1 line2").
Proof.
  split.
  - intros fields s H. unfold desc_of. rewrite H. simpl.
    rewrite nonblank_splitlines. reflexivity.
  - vm_compute. reflexivity.
Qed.

Lemma description_rule_witness :
  desc_of sample_fields = Ok (spec_description sample_description).
Proof.
  exact (proj1 description_rule sample_fields sample_description eq_refl).
Defined.

(** C3, as the claim states it, fails: a task exported without the
    acceptance-criteria field makes lines 88-91 raise [KeyError] instead
    of giving empty text. *)
Lemma acfn_absent_field_raises :
  acfn_of sample_fields_no_criteria
  = Raise (KeyError (key "customfield_27708"))
  /\ acfn_of sample_fields_no_criteria <> Ok [].
Proof. split; [vm_compute; reflexivity | vm_compute; discriminate]. Qed.

(** C3 (amended): the acceptance-criteria value derived at lines 88-91 is
    the non-blank lines of the custom field rejoined with a line break
    when the field holds text, empty text when it holds [None] (or
    another false value), and a [KeyError] when the field is absent from
    the task. *)
Theorem acfn_rule :
  forall (d : list (pystr * value)),
    acfn_of (VDict d) =
    match dict_lookup (lit "customfield_27708") d with
    | None => Raise (KeyError (key "customfield_27708"))
    | Some (VStr s) => Ok (spec_acceptance_criteria s)
    | Some v => if py_truthy v then Raise AttributeError else Ok []
    end.
Proof.
  intros d. unfold acfn_of.
  change (py_getitem (VDict d) (key "customfield_27708"))
    with (match dict_lookup (lit "customfield_27708") d with
          | Some v => Ok v
          | None => Raise (KeyError (key "customfield_27708"))
          end).
  destruct (dict_lookup (lit "customfield_27708") d) as [v|]; [|reflexivity].
  cbn [bind].
  destruct v as [| b | z | s | l | d' | u]; cbn [py_truthy];
    try reflexivity.
  destruct s as [|c s]; [reflexivity|].
  cbn [bind py_splitlines]. rewrite nonblank_splitlines. reflexivity.
Qed.

(** ** Sub-tasks (lines 114-123) *)

Lemma mapM_Forall2 {A B} (f : A -> result B) (l : list A) (r : list B) :
  mapM f l = Ok r <-> Forall2 (fun a b => f a = Ok b) l r.
Proof.
  revert r. induction l as [|x l IH]; intros r; simpl.
  - split; intros H.
    + injection H as <-. constructor.
    + inversion H. reflexivity.
  - split; intros H.
    + destruct (f x) as [y|] eqn:Ex; [|discriminate]. simpl in H.
      destruct (mapM f l) as [ys|] eqn:El; [|discriminate]. simpl in H.
      injection H as <-. constructor; [exact Ex|]. apply IH. reflexivity.
    + inversion H as [|a b l' r' Hx Hl]; subst.
      rewrite Hx. simpl. apply IH in Hl. rewrite Hl. reflexivity.
Qed.

Lemma mapM_length {A B} (f : A -> result B) (l : list A) (r : list B) :
  mapM f l = Ok r -> List.length r = List.length l.
Proof.
  intros H. apply mapM_Forall2 in H.
  symmetry. eapply Forall2_length; eassumption.
Qed.

(** The loop with [append] builds the list of entries front to back. *)
Lemma append_sub_tasks_mapM (items acc : list value) :
  append_sub_tasks acc items
  = (entries <- mapM sub_task_entry items ;; Ok (acc ++ entries)).
Proof.
  revert acc. induction items as [|x items IH]; intros acc; simpl.
  - rewrite app_nil_r. reflexivity.
  - destruct (sub_task_entry x) as [e|]; simpl; [|reflexivity].
    rewrite IH. destruct (mapM sub_task_entry items); simpl; [|reflexivity].
    rewrite <- app_assoc. reflexivity.
Qed.

Lemma getitem_dict (d : list (pystr * value)) (k : pystr) :
  py_getitem (VDict d) (VStr k)
  = match dict_lookup k d with
    | Some v => Ok v
    | None => Raise (KeyError (VStr k))
    end.
Proof. reflexivity. Qed.

Lemma getitem_key_ok (c v : value) (k : pystr) :
  py_getitem c (VStr k) = Ok v ->
  exists d, c = VDict d /\ dict_lookup k d = Some v.
Proof.
  destruct c; try (simpl; discriminate).
  rewrite getitem_dict. destruct (dict_lookup k d) eqn:E; [|discriminate].
  intros H. injection H as <-. eauto.
Qed.

Lemma sub_task_entry_drawn (sub entry : value) :
  sub_task_entry sub = Ok entry <-> drawn_from sub entry.
Proof.
  unfold sub_task_entry, drawn_from, key. split.
  - intros H.
    destruct (py_getitem sub (VStr (lit "fields"))) as [f|] eqn:Ef;
      [|discriminate].
    apply getitem_key_ok in Ef. destruct Ef as (sd & -> & Hf).
    cbn [bind] in H.
    destruct (py_getitem f (VStr (lit "summary"))) as [s|] eqn:Es;
      [|discriminate].
    apply getitem_key_ok in Es. destruct Es as (fd & -> & Hs).
    cbn [bind] in H. rewrite !getitem_dict in H.
    destruct (dict_lookup (lit "key") sd) as [k|] eqn:Ek; [|discriminate].
    destruct (dict_lookup (lit "self") sd) as [u|] eqn:Eu; [|discriminate].
    cbn [bind] in H. injection H as <-.
    exists sd, fd, s, k, u. repeat split; assumption.
  - intros (sd & fd & s & k & u & -> & Hf & Hs & Hk & Hu & ->).
    rewrite !getitem_dict, Hf. cbn [bind].
    rewrite !getitem_dict, Hs, Hk, Hu. reflexivity.
Qed.

(** C7: when the issues list holds a main issue followed by [n]
    sub-issues (each with its summary, key and self-reference), the
    sub-task list built by lines 114-123 has exactly [n] entries, the
    i-th one drawn from the i-th issue beyond the first: summary and key
    from the issue, url from its self-reference. *)
Theorem sub_task_list_rule :
  forall (d : list (pystr * value)) (main : value) (subs : list value),
    dict_lookup (lit "issues") d = Some (VList (main :: subs)) ->
    Forall (fun sub => exists entry, drawn_from sub entry) subs ->
    exists entries,
      sub_task_list_of (VDict d) = Ok (VList entries)
      /\ List.length entries = List.length subs
      /\ Forall2 drawn_from subs entries.
Proof.
  intros d main subs Hd Hsubs.
  assert (Hentries : exists entries, mapM sub_task_entry subs = Ok entries).
  { clear Hd. induction Hsubs as [|sub subs' He _ IH].
    - exists []. reflexivity.
    - destruct He as [e He]. destruct IH as [es IH].
      exists (e :: es). simpl.
      apply sub_task_entry_drawn in He. rewrite He, IH. reflexivity. }
  destruct Hentries as [entries He].
  unfold sub_task_list_of, key. rewrite !getitem_dict, Hd.
  cbn [bind py_len].
  destruct subs as [|sub subs'].
  - simpl in He. injection He as <-.
    exists []. simpl. auto.
  - exists entries.
    replace (Z.ltb 1 (Z.of_nat (List.length (main :: sub :: subs'))))
      with true by (symmetry; apply Z.ltb_lt; simpl List.length; lia).
    cbn [bind py_slice_from1 skipn py_iter].
    rewrite append_sub_tasks_mapM, He. cbn [bind app].
    split; [reflexivity|]. split.
    + eapply mapM_length; eassumption.
    + apply mapM_Forall2 in He.
      eapply Forall2_impl; [|exact He].
      intros a b Hab. apply sub_task_entry_drawn. exact Hab.
Qed.

Lemma sub_task_list_rule_witness :
  exists entries,
    sub_task_list_of sample_document = Ok (VList entries)
    /\ List.length entries = 1
    /\ Forall2 drawn_from [sample_sub] entries.
Proof.
  refine (@sub_task_list_rule
            [(lit "issues", VList [sample_main; sample_sub])]
            sample_main [sample_sub] eq_refl _).
  constructor; [|constructor].
  eexists. apply sub_task_entry_drawn. vm_compute. reflexivity.
Defined.

(** ** The report (lines 4-42) *)

Section Report.

Variable repr : value -> pystr.

(** The loop with [+=] appends the blocks in the order of the list. *)
Lemma append_blocks_mapM (template : pystr) (items : list value)
  (acc : pystr) :
  append_blocks repr template acc items
  = (blocks <- mapM (str_format repr template) items ;;
     Ok (acc ++ List.concat blocks)).
Proof.
  revert acc. induction items as [|x items IH]; intros acc; simpl.
  - rewrite app_nil_r. reflexivity.
  - destruct (str_format repr template x) as [b|]; simpl; [|reflexivity].
    rewrite IH.
    destruct (mapM (str_format repr template) items); simpl; [|reflexivity].
    rewrite <- app_assoc. reflexivity.
Qed.

Lemma guarded_section (template header acc : pystr) (l : list value) :
  (if py_truthy (VList l) then
     items <- py_iter (VList l) ;;
     append_blocks repr template (acc ++ header) items
   else Ok acc)
  = (blocks <- mapM (str_format repr template) l ;;
     Ok (acc ++ section_text header blocks)).
Proof.
  destruct l as [|x l].
  - simpl. rewrite app_nil_r. reflexivity.
  - cbn [py_truthy py_iter bind]. rewrite append_blocks_mapM.
    cbn [mapM].
    destruct (str_format repr template x) as [b|]; simpl; [|reflexivity].
    destruct (mapM (str_format repr template) l); simpl; [|reflexivity].
    rewrite <- app_assoc. reflexivity.
Qed.

Lemma create_md_file_closed_form (md_dict : value) (al sl : list value) :
  create_md_file repr md_dict (VList al) (VList sl)
  = (main <- str_format repr main_task_template md_dict ;;
     ablocks <- mapM (str_format repr attachment_template) al ;;
     sblocks <- mapM (str_format repr sub_tasks_template) sl ;;
     Ok (main ++ section_text attachment_header ablocks
              ++ section_text sub_tasks_header sblocks)).
Proof.
  unfold create_md_file.
  destruct (str_format repr main_task_template md_dict) as [main|];
    [|reflexivity].
  cbn [bind]. rewrite guarded_section.
  destruct (mapM (str_format repr attachment_template) al) as [ab|];
    [|reflexivity].
  cbn [bind]. rewrite guarded_section.
  destruct (mapM (str_format repr sub_tasks_template) sl) as [sb|];
    [|reflexivity].
  cbn [bind]. rewrite <- app_assoc. reflexivity.
Qed.

End Report.

(** Occurrence of a text inside another. *)
Lemma starts_with_app (p rest : pystr) : starts_with p (p ++ rest) = true.
Proof.
  induction p as [|c p IH]; [reflexivity|].
  cbn [app starts_with]. rewrite N.eqb_refl, IH. reflexivity.
Qed.

Lemma contains_here (p s : pystr) :
  starts_with p s = true -> contains p s = true.
Proof. intros H. destruct s; cbn [contains]; rewrite H; reflexivity. Qed.

Lemma contains_later (p a s : pystr) :
  contains p s = true -> contains p (a ++ s) = true.
Proof.
  intros H. induction a as [|c a IH]; [exact H|].
  cbn [app contains]. rewrite IH. apply orb_true_r.
Qed.

Lemma contains_middle (p a b : pystr) : contains p (a ++ p ++ b) = true.
Proof. apply contains_later, contains_here, starts_with_app. Qed.

Lemma section_text_cons (header : pystr) (blocks : list pystr) :
  blocks <> [] -> section_text header blocks = header ++ List.concat blocks.
Proof. destruct blocks; [congruence | reflexivity]. Qed.

(** C6: [create_md_file] returns a report exactly when the flat mapping
    and every list element fill their template, and the report is then
    the main block, followed by the attachment section and the sub-task
    section; there is one block per list element, a section is empty
    text when its list is empty (no header is written), and otherwise
    its header followed by the blocks, in the order of the list.  Hence
    the header of a non-empty list occurs in the report.  The converse
    is not claimed: a header text may occur in the report of an empty
    list, inside a field value. *)
Theorem report_sections :
  forall (repr : value -> pystr) (md_dict : value) (al sl : list value)
         (report : pystr),
    (create_md_file repr md_dict (VList al) (VList sl) = Ok report <->
     exists main ablocks sblocks,
       str_format repr main_task_template md_dict = Ok main
       /\ Forall2 (fun a b => str_format repr attachment_template a = Ok b)
            al ablocks
       /\ Forall2 (fun s b => str_format repr sub_tasks_template s = Ok b)
            sl sblocks
       /\ List.length ablocks = List.length al
       /\ List.length sblocks = List.length sl
       /\ report = main ++ section_text attachment_header ablocks
                        ++ section_text sub_tasks_header sblocks)
    /\ (create_md_file repr md_dict (VList al) (VList sl) = Ok report ->
        (al <> [] -> contains attachment_header report = true)
        /\ (sl <> [] -> contains sub_tasks_header report = true)).
Proof.
  intros repr md_dict al sl report.
  rewrite create_md_file_closed_form.
  assert (Hfwd :
    (main <- str_format repr main_task_template md_dict ;;
     ablocks <- mapM (str_format repr attachment_template) al ;;
     sblocks <- mapM (str_format repr sub_tasks_template) sl ;;
     Ok (main ++ section_text attachment_header ablocks
              ++ section_text sub_tasks_header sblocks)) = Ok report ->
    exists main ab sb,
      str_format repr main_task_template md_dict = Ok main
      /\ mapM (str_format repr attachment_template) al = Ok ab
      /\ mapM (str_format repr sub_tasks_template) sl = Ok sb
      /\ report = main ++ section_text attachment_header ab
                       ++ section_text sub_tasks_header sb).
  { intros H.
    destruct (str_format repr main_task_template md_dict) as [main|];
      [|discriminate].
    cbn [bind] in H.
    destruct (mapM (str_format repr attachment_template) al) as [ab|];
      [|discriminate].
    cbn [bind] in H.
    destruct (mapM (str_format repr sub_tasks_template) sl) as [sb|];
      [|discriminate].
    cbn [bind] in H. injection H as <-.
    exists main, ab, sb. repeat split; reflexivity. }
  split; [split|].
  - intros H. destruct (Hfwd H) as (main & ab & sb & Hm & Ha & Hs & ->).
    exists main, ab, sb.
    repeat split; try assumption; try reflexivity;
      try (apply mapM_Forall2; assumption);
      eapply mapM_length; eassumption.
  - intros (main & ab & sb & Hm & Ha & Hs & _ & _ & ->).
    apply mapM_Forall2 in Ha. apply mapM_Forall2 in Hs.
    rewrite Hm, Ha, Hs. reflexivity.
  - intros H. destruct (Hfwd H) as (main & ab & sb & Hm & Ha & Hs & ->).
    apply mapM_length in Ha. apply mapM_length in Hs. split.
    + intros Hal. rewrite section_text_cons.
      * rewrite <- app_assoc. apply contains_middle.
      * intros ->. destruct al; [congruence | discriminate Ha].
    + intros Hsl. rewrite (section_text_cons sub_tasks_header).
      * rewrite app_assoc. apply contains_middle.
      * intros ->. destruct sl; [congruence | discriminate Hs].
Qed.

Lemma report_sections_witness :
  exists report,
    create_md_file sample_repr sample_md_dict (VList [sample_attach])
      (VList []) = Ok report
    /\ contains attachment_header report = true.
Proof.
  destruct (create_md_file sample_repr sample_md_dict (VList [sample_attach])
              (VList [])) as [report|] eqn:H;
    [|vm_compute in H; discriminate H].
  exists report. split; [reflexivity|].
  apply (proj2 (@report_sections sample_repr sample_md_dict [sample_attach]
                  [] report) H).
  discriminate.
Defined.

(** The attachment header occurs in a report made without attachments. *)
Lemma header_without_attachments :
  exists report,
    create_md_file sample_repr header_summary_md_dict (VList []) (VList [])
    = Ok report
    /\ contains attachment_header report = true.
Proof. eexists. split; vm_compute; reflexivity. Qed.

(** The header of a section appears right after what precedes it exactly
    when its list is not empty. *)
Lemma section_text_nil_iff (header : pystr) (blocks : list pystr) :
  header <> [] -> (section_text header blocks = [] <-> blocks = []).
Proof.
  intros Hh. destruct blocks as [|b bs]; simpl.
  - tauto.
  - split; [|discriminate].
    intros H. destruct header; [congruence | discriminate].
Qed.

Example report_sample :
  create_md_file sample_repr sample_md_dict (VList [sample_attach])
    (VList [sample_sub_task])
  = Ok (lit
"# Summary
Login fails
## Description
line1 line2
## Task Info
* Status: Open
* Updated: 2024-01-02
* Issuetype: Bug
## Labels
a, b
## Market Affected Field Name
EU
## Acceptance Criteria Field Name

---
## Attachment
f.png
* ID: 1
* Created: 2024-01-01
* File Size: 100
* Download URL: http://x
---
## Sub Tasks
Write test
* Key: JA-2
* URL: http://jira/2
---
").
Proof. vm_compute. reflexivity. Qed.

Example report_sample_no_lists :
  create_md_file sample_repr sample_md_dict (VList []) (VList [])
  = str_format sample_repr main_task_template sample_md_dict.
Proof. vm_compute. reflexivity. Qed.

(** ** The alternate entry point (lines 77-80 with 114-123) *)

Lemma sub_task_list_of_no_issues (d : list (pystr * value)) :
  dict_lookup (lit "issues") d = None ->
  sub_task_list_of (VDict d) = Raise (KeyError (key "issues")).
Proof.
  intros H. unfold sub_task_list_of, key. rewrite getitem_dict, H.
  reflexivity.
Qed.

Lemma extract_needs_sub_task_list (json_result : value) (is_main_task : bool)
  (x : extracted) :
  extract json_result is_main_task = Ok x ->
  sub_task_list_of json_result = Ok (x_sub_task_list x).
Proof.
  unfold extract. intros H.
  destruct (main_task_of json_result is_main_task) as [mt|]; [|discriminate].
  cbn [bind] in H.
  destruct (py_getitem mt (key "fields")) as [f|]; [|discriminate].
  cbn [bind] in H.
  destruct (py_getitem mt (key "key")) as [k|]; [|discriminate].
  cbn [bind] in H.
  destruct (md_dict_of f) as [md|]; [|discriminate].
  cbn [bind] in H.
  destruct (attach_list_of f) as [al|]; [|discriminate].
  cbn [bind] in H.
  destruct (sub_task_list_of json_result) as [sl|]; [|discriminate].
  cbn [bind] in H. injection H as <-. reflexivity.
Qed.

(** C2 (code defect): on a single issue record, which has no [issues]
    attribute, the alternate entry point does not return.  Line 115 reads
    [json_result['issues']] whatever [is_main_task] is, so the sub-task
    block raises [KeyError] and the extraction yields no mapping and no
    empty sub-task list; [proc_task] itself has raised [TypeError] at
    line 76 before that. *)
Theorem alternate_entry_point_raises :
  forall (d : list (pystr * value)),
    dict_lookup (lit "issues") d = None ->
    sub_task_list_of (VDict d) = Raise (KeyError (key "issues"))
    /\ (forall x, extract (VDict d) false <> Ok x)
    /\ (forall repr w,
           fst (proc_task repr (VDict d) false w) = Raise TypeError).
Proof.
  intros d H. split; [apply sub_task_list_of_no_issues; exact H|]. split.
  - intros x Hx. apply extract_needs_sub_task_list in Hx.
    rewrite (sub_task_list_of_no_issues _ H) in Hx. discriminate.
  - intros repr w. apply proc_task_type_error.
Qed.

Lemma alternate_entry_point_witness :
  sub_task_list_of sample_main = Raise (KeyError (key "issues")).
Proof.
  exact (proj1 (@alternate_entry_point_raises
                  [ (lit "fields", sample_fields); (lit "key", key "JA-1");
                    (lit "self", key "http://jira/1") ] eq_refl)).
Defined.

Example alternate_entry_point_sample :
  extract sample_main false = Raise (KeyError (key "issues")).
Proof. vm_compute. reflexivity. Qed.

(** ** Two invocations (lines 74-126) *)

(** X1: past line 76 the report and the returned key depend on the
    document alone: the record identifier and the file name only reach
    the metadata. *)
Lemma report_independent_of_record_id (repr : value -> pystr)
  (rid1 fn1 rid2 fn2 json_result : value) (is_main_task : bool)
  (r1 r2 : pystr * pystr * value) :
  proc_task_body repr rid1 fn1 json_result is_main_task = Ok r1 ->
  proc_task_body repr rid2 fn2 json_result is_main_task = Ok r2 ->
  fst (fst r1) = fst (fst r2) /\ snd r1 = snd r2.
Proof.
  unfold proc_task_body. intros H1 H2.
  destruct (extract json_result is_main_task) as [x|]; [|discriminate].
  cbn [bind] in H1, H2.
  destruct (create_md_file repr (x_md_dict x) (x_attach_list x)
              (x_sub_task_list x)) as [md|]; [|discriminate].
  cbn [bind] in H1, H2.
  destruct (main_meta_of rid1 fn1 (x_main_task x) (x_md_dict x));
    [|discriminate].
  destruct (main_meta_of rid2 fn2 (x_main_task x) (x_md_dict x));
    [|discriminate].
  cbn [bind] in H1, H2. injection H1 as <-. injection H2 as <-.
  split; reflexivity.
Qed.

Lemma report_independent_of_record_id_witness :
  exists r1 r2,
    proc_task_body sample_repr (key "a") (key "a.md") sample_document true
    = Ok r1
    /\ proc_task_body sample_repr (key "b") (key "b.md") sample_document true
       = Ok r2
    /\ fst (fst r1) = fst (fst r2) /\ snd r1 = snd r2.
Proof.
  destruct (proc_task_body sample_repr (key "a") (key "a.md") sample_document
              true) as [r1|] eqn:H1; [|vm_compute in H1; discriminate H1].
  destruct (proc_task_body sample_repr (key "b") (key "b.md") sample_document
              true) as [r2|] eqn:H2; [|vm_compute in H2; discriminate H2].
  exists r1, r2. split; [reflexivity|]. split; [reflexivity|].
  exact (@report_independent_of_record_id sample_repr (key "a") (key "a.md")
           (key "b") (key "b.md") sample_document true r1 r2 H1 H2).
Defined.

(** C8 (code defect): two invocations on the same document produce no
    report text at all, identical or not; whatever the two states of the
    random source, each invocation raises [TypeError] at line 76, before
    a file name exists and before the report is rendered. *)
Theorem two_invocations_raise :
  forall (repr : value -> pystr) (json_result : value) (w1 w2 : entropy),
    fst (proc_task repr json_result true w1) = Raise TypeError
    /\ fst (proc_task repr json_result true w2) = Raise TypeError
    /\ ~ (exists r1 r2,
             fst (proc_task repr json_result true w1) = Ok r1
             /\ fst (proc_task repr json_result true w2) = Ok r2
             /\ fst (fst r1) = fst (fst r2)).
Proof.
  intros repr json_result w1 w2.
  rewrite !proc_task_type_error.
  split; [reflexivity|]. split; [reflexivity|].
  intros (r1 & r2 & H & _). discriminate.
Qed.

Example two_invocations_sample :
  fst (proc_task sample_repr sample_document true sample_entropy)
  = Raise TypeError
  /\ fst (proc_task sample_repr sample_document true other_entropy)
     = Raise TypeError
  /\ fst (uuid4 sample_entropy) <> fst (uuid4 other_entropy).
Proof. vm_compute. repeat split; discriminate. Qed.

(** ** Metadata without arguments (lines 44-72) *)

(** C10: called with no arguments, [create_meta_file] returns the JSON
    text of a mapping with exactly the twelve fixed keys, in which
    [level] is 0, [attachment_type] is "file" and the other ten values
    are null. *)
Theorem create_meta_file_defaults :
  create_meta_file no_kwargs = Ok default_meta_text
  /\ json_loads default_meta_text = Some default_meta_mapping.
Proof. split; vm_compute; reflexivity. Qed.

(** ** The metadata text and its decoding (lines 44-72) *)

Section Metadata.

Lemma hex_fixed_decodes (c : N) :
  (c < 32)%N ->
  exists h1 h2 h3 h4,
    hex_fixed 4 c = [h1; h2; h3; h4]
    /\ hex4_value h1 h2 h3 h4 = Some c.
Proof.
  intros H.
  assert (E : (c = 0 \/ c = 1 \/ c = 2 \/ c = 3 \/ c = 4 \/ c = 5 \/ c = 6
               \/ c = 7 \/ c = 8 \/ c = 9 \/ c = 10 \/ c = 11 \/ c = 12
               \/ c = 13 \/ c = 14 \/ c = 15 \/ c = 16 \/ c = 17 \/ c = 18
               \/ c = 19 \/ c = 20 \/ c = 21 \/ c = 22 \/ c = 23 \/ c = 24
               \/ c = 25 \/ c = 26 \/ c = 27 \/ c = 28 \/ c = 29 \/ c = 30
               \/ c = 31)%N) by lia.
  repeat (destruct E as [E|E]; [subst c; do 4 eexists; split; reflexivity|]).
  subst c; do 4 eexists; split; reflexivity.
Qed.

(** Reading back one encoded character. *)
Lemma scan_string_escape (c : N) (tail : pystr) :
  scan_string (escape_char c ++ tail) = cons_char c (scan_string tail).
Proof.
  unfold escape_char, DQUOTE, BACKSLASH.
  destruct (N.eqb_spec c 34) as [->|H34]; [reflexivity|].
  destruct (N.eqb_spec c 92) as [->|H92]; [reflexivity|].
  destruct (N.eqb_spec c 10) as [->|H10]; [reflexivity|].
  destruct (N.eqb_spec c 13) as [->|H13]; [reflexivity|].
  destruct (N.eqb_spec c 9) as [->|H9]; [reflexivity|].
  destruct (N.eqb_spec c 8) as [->|H8]; [reflexivity|].
  destruct (N.eqb_spec c 12) as [->|H12]; [reflexivity|].
  destruct (N.ltb_spec c 32) as [Hlt|Hge].
  - destruct (hex_fixed_decodes Hlt) as (h1 & h2 & h3 & h4 & -> & Hv).
    cbn [app scan_string]. unfold DQUOTE, BACKSLASH.
    cbn [N.eqb Pos.eqb]. rewrite Hv.
    replace (is_high_surrogate c) with false; [reflexivity|].
    symmetry. unfold is_high_surrogate.
    apply andb_false_iff. left. apply N.leb_gt. lia.
  - cbn [app scan_string]. unfold DQUOTE, BACKSLASH.
    replace (N.eqb c 34) with false by (symmetry; apply N.eqb_neq; exact H34).
    replace (N.eqb c 92) with false by (symmetry; apply N.eqb_neq; exact H92).
    replace (N.ltb c 32) with false by (symmetry; apply N.ltb_ge; exact Hge).
    reflexivity.
Qed.

(** Reading back an encoded string, from after its opening quote. *)
Lemma scan_string_encode (s rest : pystr) :
  scan_string (flat_map escape_char s ++ DQUOTE :: rest) = Some (s, rest).
Proof.
  induction s as [|c s IH].
  - reflexivity.
  - cbn [flat_map]. rewrite <- app_assoc, scan_string_escape, IH.
    reflexivity.
Qed.

Lemma json_dumps_text (v : value) :
  is_text v = true -> json_dumps v = Ok (text_json v).
Proof. destruct v; try discriminate; reflexivity. Qed.

Lemma skip_ws_text_json (v : value) (rest : pystr) :
  skip_ws (text_json v ++ rest) = text_json v ++ rest.
Proof. destruct v; reflexivity. Qed.

Lemma scan_once_text (fuel : nat) (v : value) (rest : pystr) :
  is_text v = true ->
  scan_once (S fuel) (text_json v ++ rest) = Some (v, rest).
Proof.
  destruct v; try discriminate; intros _.
  - reflexivity.
  - unfold text_json, encode_basestring.
    cbn [app scan_once]. unfold DQUOTE at 1. cbn [N.eqb Pos.eqb].
    rewrite <- app_assoc. cbn [app]. rewrite scan_string_encode.
    reflexivity.
Qed.

(** The members of a flat object as [json.dumps] writes them. *)
Lemma dumps_members (d : list (pystr * value)) :
  all_text d ->
  (fix items (d : list (pystr * value)) : result (list pystr) :=
     match d with
     | [] => Ok []
     | (k, x) :: d' =>
         y <- json_dumps x ;; ys <- items d' ;;
         Ok ((encode_basestring k ++ lit ": " ++ y) :: ys)
     end) d
  = Ok (map (fun kv => encode_basestring (fst kv) ++ lit ": "
                        ++ text_json (snd kv)) d).
Proof.
  induction 1 as [|[k v] d Hv _ IH].
  - reflexivity.
  - cbn [snd] in Hv. rewrite (json_dumps_text _ Hv). cbn [bind].
    rewrite IH. reflexivity.
Qed.

Lemma join_members (kv : pystr * value) (d : list (pystr * value)) :
  join (lit ", ")
    (map (fun kv => encode_basestring (fst kv) ++ lit ": "
                    ++ text_json (snd kv)) (kv :: d))
  = DQUOTE :: member_body kv ++ more_members d.
Proof.
  set (f := fun kv : pystr * value =>
              encode_basestring (fst kv) ++ lit ": " ++ text_json (snd kv)).
  revert kv. induction d as [|kv' d IH]; intros kv.
  - cbn [map join more_members]. unfold f, encode_basestring, member_body.
    cbn [app]. rewrite <- !app_assoc. rewrite app_nil_r. reflexivity.
  - change (join (lit ", ") (map f (kv :: kv' :: d)))
      with (f kv ++ lit ", " ++ join (lit ", ") (map f (kv' :: d))).
    rewrite IH. cbn [more_members].
    unfold f, encode_basestring, member_body.
    cbn [app]. rewrite <- !app_assoc. reflexivity.
Qed.

(** The text [json.dumps] gives for a flat mapping with text values. *)
Lemma json_dumps_flat (kv : pystr * value) (d : list (pystr * value)) :
  all_text (kv :: d) ->
  json_dumps (VDict (kv :: d))
  = Ok (123%N :: DQUOTE :: member_body kv ++ more_members d ++ [125%N]).
Proof.
  intros H. cbn [json_dumps].
  rewrite (dumps_members H). cbn [bind].
  rewrite join_members.
  change (lit "{") with [123%N]. change (lit "}") with [125%N].
  cbn [app]. rewrite <- app_assoc. reflexivity.
Qed.

(** Reading back the members, from after the opening quote of the first
    key. *)
Lemma scan_members_flat (d : list (pystr * value)) :
  forall (kv : pystr * value) (fuel : nat) (rest : pystr),
    all_text (kv :: d) ->
    S (List.length d) < fuel ->
    scan_members fuel (member_body kv ++ more_members d ++ 125%N :: rest)
    = Some (kv :: d, rest).
Proof.
  induction d as [|kv' d IH]; intros [k v] fuel rest Hall Hfuel;
    inversion Hall as [|? ? Hv Hd]; subst; cbn [snd] in Hv;
    (destruct fuel as [|fuel]; [simpl in Hfuel; lia|]);
    unfold member_body; cbn [fst snd];
    rewrite <- !app_assoc; cbn [app]; rewrite <- ?app_assoc;
    cbn [scan_members];
    (destruct fuel as [|fuel]; [simpl in Hfuel; lia|]);
    rewrite scan_string_encode;
    change (lit ": ") with [58%N; 32%N];
    cbn [app skip_ws is_json_ws N.eqb Pos.eqb orb];
    rewrite skip_ws_text_json, (scan_once_text _ _ _ Hv).
  - reflexivity.
  - cbn [more_members]. change (lit ", ") with [44%N; 32%N].
    cbn [app skip_ws is_json_ws N.eqb Pos.eqb orb].
    unfold DQUOTE at 1 2 3.
    cbn [app skip_ws is_json_ws N.eqb Pos.eqb orb].
    rewrite <- ?app_assoc.
    rewrite (IH kv' (S fuel) rest Hd) by (simpl in Hfuel |- *; lia).
    reflexivity.
Qed.

Lemma more_members_length (d : list (pystr * value)) :
  List.length d <= List.length (more_members d).
Proof.
  induction d as [|kv d IH]; [apply Nat.le_refl|].
  cbn [more_members]. rewrite !length_app. simpl List.length.
  rewrite !length_app. lia.
Qed.

Lemma member_text_length (kv : pystr * value) (d : list (pystr * value))
  (rest : pystr) :
  List.length d < List.length (member_body kv ++ more_members d ++ rest).
Proof.
  pose proof (more_members_length d) as L.
  unfold member_body. rewrite !length_app. simpl List.length. lia.
Qed.

(** Decoding the text of a flat mapping with text values gives back its
    members, collected into a mapping. *)
Lemma json_loads_flat (kv : pystr * value) (d : list (pystr * value)) :
  all_text (kv :: d) ->
  json_loads (123%N :: DQUOTE :: member_body kv ++ more_members d ++ [125%N])
  = Some (VDict (dict_of_pairs (kv :: d))).
Proof.
  intros H. unfold json_loads.
  cbn [skip_ws is_json_ws N.eqb Pos.eqb orb].
  cbn [scan_once]. unfold DQUOTE at 1 2 3 4.
  cbn [N.eqb Pos.eqb skip_ws is_json_ws orb].
  rewrite scan_members_flat; [reflexivity | exact H |].
  pose proof (member_text_length kv d [125%N]) as L.
  simpl List.length. lia.
Qed.

(** *** Characters outside ASCII pass through unescaped *)

Lemma occurrences_app (c : N) (a b : pystr) :
  occurrences c (a ++ b) = occurrences c a + occurrences c b.
Proof. apply count_occ_app. Qed.

Lemma occurrences_cons_ascii (c x : N) (s : pystr) :
  (128 <= c)%N -> is_ascii x = true ->
  occurrences c (x :: s) = occurrences c s.
Proof.
  intros Hc Hx. unfold occurrences. apply count_occ_cons_neq.
  apply N.ltb_lt in Hx. lia.
Qed.

Lemma ascii_no_occurrence (c : N) (s : pystr) :
  (128 <= c)%N -> forallb is_ascii s = true -> occurrences c s = 0.
Proof.
  intros Hc. induction s as [|x s IH]; [reflexivity|].
  simpl forallb. intros H. apply andb_true_iff in H. destruct H as [Hx Hs].
  rewrite (@occurrences_cons_ascii c x s Hc Hx). apply IH. exact Hs.
Qed.

Lemma hex_digit_ascii (n : N) : (n < 16)%N -> is_ascii (hex_digit n) = true.
Proof.
  intros H. unfold hex_digit, is_ascii.
  destruct (N.ltb n 10); apply N.ltb_lt; lia.
Qed.

Lemma hex_fixed_ascii (width : nat) (n : N) :
  forallb is_ascii (hex_fixed width n) = true.
Proof.
  revert n. induction width as [|w IH]; intros n; [reflexivity|].
  cbn [hex_fixed]. rewrite forallb_app, IH. simpl.
  rewrite hex_digit_ascii; [reflexivity|].
  apply N.mod_lt. discriminate.
Qed.

Lemma escape_char_ascii (x : N) :
  is_ascii x = true -> forallb is_ascii (escape_char x) = true.
Proof.
  intros Hx. unfold escape_char.
  repeat match goal with
         | |- context [if N.eqb x ?k then _ else _] =>
             destruct (N.eqb x k); [reflexivity|]
         end.
  destruct (N.ltb x 32).
  - change (forallb is_ascii (BACKSLASH :: 117%N :: hex_fixed 4 x))
      with (forallb is_ascii (hex_fixed 4 x)).
    apply hex_fixed_ascii.
  - simpl. rewrite Hx. reflexivity.
Qed.

Lemma escape_char_plain (x : N) : (128 <= x)%N -> escape_char x = [x].
Proof.
  intros Hx. unfold escape_char, DQUOTE, BACKSLASH.
  repeat match goal with
         | |- context [if N.eqb x ?k then _ else _] =>
             destruct (N.eqb_spec x k); [lia|]
         end.
  destruct (N.ltb_spec x 32); [lia | reflexivity].
Qed.

Lemma escape_char_occurrences (c x : N) :
  (128 <= c)%N -> occurrences c (escape_char x) = occurrences c [x].
Proof.
  intros Hc. destruct (is_ascii x) eqn:Hx.
  - rewrite (@ascii_no_occurrence c _ Hc (@escape_char_ascii x Hx)).
    rewrite (@occurrences_cons_ascii c x [] Hc Hx). reflexivity.
  - rewrite escape_char_plain; [reflexivity|].
    apply N.ltb_ge in Hx. exact Hx.
Qed.

Lemma escaped_occurrences (c : N) (s : pystr) :
  (128 <= c)%N -> occurrences c (flat_map escape_char s) = occurrences c s.
Proof.
  intros Hc. induction s as [|x s IH]; [reflexivity|].
  cbn [flat_map]. rewrite occurrences_app, IH, (@escape_char_occurrences c x Hc).
  change (x :: s) with ([x] ++ s). rewrite occurrences_app. reflexivity.
Qed.

Lemma text_json_occurrences (c : N) (v : value) :
  (128 <= c)%N -> is_text v = true ->
  occurrences c (text_json v) = value_occurrences c v.
Proof.
  intros Hc. destruct v; try discriminate; intros _.
  - apply (@ascii_no_occurrence c (lit "null") Hc). reflexivity.
  - unfold text_json, encode_basestring.
    rewrite (@occurrences_cons_ascii c DQUOTE _ Hc) by reflexivity.
    rewrite occurrences_app, (@escaped_occurrences c s Hc).
    rewrite (@ascii_no_occurrence c [DQUOTE] Hc) by reflexivity.
    simpl. lia.
Qed.

Lemma member_body_occurrences (c : N) (kv : pystr * value) :
  (128 <= c)%N -> is_text (snd kv) = true ->
  occurrences c (member_body kv)
  = occurrences c (fst kv) + value_occurrences c (snd kv).
Proof.
  intros Hc Hv. unfold member_body.
  rewrite occurrences_app, (@escaped_occurrences c _ Hc).
  rewrite (@occurrences_cons_ascii c DQUOTE _ Hc) by reflexivity.
  rewrite occurrences_app, (@text_json_occurrences c _ Hc Hv).
  rewrite (@ascii_no_occurrence c (lit ": ") Hc) by reflexivity.
  reflexivity.
Qed.

Lemma more_members_occurrences (c : N) (d : list (pystr * value)) :
  (128 <= c)%N -> all_text d ->
  occurrences c (more_members d) = members_occurrences c d.
Proof.
  intros Hc. induction 1 as [|kv d Hv _ IH]; [reflexivity|].
  cbn [more_members members_occurrences fold_right].
  rewrite occurrences_app.
  rewrite (@ascii_no_occurrence c (lit ", ") Hc) by reflexivity.
  rewrite (@occurrences_cons_ascii c DQUOTE _ Hc) by reflexivity.
  rewrite occurrences_app, (@member_body_occurrences c kv Hc Hv), IH.
  unfold members_occurrences. simpl. lia.
Qed.

(** Every character outside ASCII occurs in the text of a flat mapping
    as often as in its keys and values. *)
Lemma flat_text_occurrences (c : N) (kv : pystr * value)
  (d : list (pystr * value)) :
  (128 <= c)%N -> all_text (kv :: d) ->
  occurrences c
    (123%N :: DQUOTE :: member_body kv ++ more_members d ++ [125%N])
  = members_occurrences c (kv :: d).
Proof.
  intros Hc H. inversion H as [|? ? Hv Hd]; subst.
  rewrite (@occurrences_cons_ascii c 123%N _ Hc) by reflexivity.
  rewrite (@occurrences_cons_ascii c DQUOTE _ Hc) by reflexivity.
  rewrite !occurrences_app.
  rewrite (@member_body_occurrences c kv Hc Hv).
  rewrite (@more_members_occurrences c d Hc Hd).
  rewrite (@ascii_no_occurrence c [125%N] Hc) by reflexivity.
  unfold members_occurrences. simpl. lia.
Qed.

Lemma is_text_text_arg (a : option pystr) : is_text (text_arg a) = true.
Proof. destruct a; reflexivity. Qed.

Lemma text_arg_occurrences (c : N) (a : option pystr) :
  value_occurrences c (text_arg a) = arg_occurrences c a.
Proof. destruct a; reflexivity. Qed.

End Metadata.

(** C4: for every assignment of text (ASCII or not) or [None] to the
    twelve parameters, [create_meta_file] returns a text; decoding that
    text gives back the mapping of the twelve keys to the values passed,
    a key being kept also when its value is empty or [None]; and every
    character outside ASCII occurs in the text exactly as often as in the
    values, that is, unescaped. *)
Theorem create_meta_file_roundtrip :
  forall (a_level a_title a_file_name a_file_record_id a_file_original_name
          a_file_original_path a_source a_value_stream a_categories
          a_parent_file_name a_attachment_type a_owner : option pystr),
  exists text,
    create_meta_file
      (text_kwargs a_level a_title a_file_name a_file_record_id
         a_file_original_name a_file_original_path a_source a_value_stream
         a_categories a_parent_file_name a_attachment_type a_owner)
    = Ok text
    /\ json_loads text
       = Some (VDict
                 [ (lit "level", text_arg a_level);
                   (lit "title", text_arg a_title);
                   (lit "file_name", text_arg a_file_name);
                   (lit "file_record_id", text_arg a_file_record_id);
                   (lit "file_original_name", text_arg a_file_original_name);
                   (lit "file_original_path", text_arg a_file_original_path);
                   (lit "source", text_arg a_source);
                   (lit "value_stream", text_arg a_value_stream);
                   (lit "categories", text_arg a_categories);
                   (lit "parent_file_name", text_arg a_parent_file_name);
                   (lit "attachment_type", text_arg a_attachment_type);
                   (lit "owner", text_arg a_owner) ])
    /\ (forall c : N,
           (128 <= c)%N ->
           occurrences c text
           = arg_occurrences c a_level + arg_occurrences c a_title
             + arg_occurrences c a_file_name
             + arg_occurrences c a_file_record_id
             + arg_occurrences c a_file_original_name
             + arg_occurrences c a_file_original_path
             + arg_occurrences c a_source + arg_occurrences c a_value_stream
             + arg_occurrences c a_categories
             + arg_occurrences c a_parent_file_name
             + arg_occurrences c a_attachment_type
             + arg_occurrences c a_owner).
Proof.
  intros.
  set (kv := (lit "level", text_arg a_level)).
  set (d := [ (lit "title", text_arg a_title);
              (lit "file_name", text_arg a_file_name);
              (lit "file_record_id", text_arg a_file_record_id);
              (lit "file_original_name", text_arg a_file_original_name);
              (lit "file_original_path", text_arg a_file_original_path);
              (lit "source", text_arg a_source);
              (lit "value_stream", text_arg a_value_stream);
              (lit "categories", text_arg a_categories);
              (lit "parent_file_name", text_arg a_parent_file_name);
              (lit "attachment_type", text_arg a_attachment_type);
              (lit "owner", text_arg a_owner) ]).
  assert (Hall : all_text (kv :: d))
    by (repeat constructor; apply is_text_text_arg).
  exists (123%N :: DQUOTE :: member_body kv ++ more_members d ++ [125%N]).
  split; [exact (@json_dumps_flat kv d Hall)|]. split.
  - rewrite (@json_loads_flat kv d Hall). reflexivity.
  - intros c Hc. rewrite (@flat_text_occurrences c kv d Hc Hall).
    unfold members_occurrences, kv, d. cbn [fold_right fst snd].
    rewrite !text_arg_occurrences.
    rewrite !(fun s => @ascii_no_occurrence c s Hc) by reflexivity.
    lia.
Qed.

Example create_meta_file_non_ascii :
  create_meta_file
    (text_kwargs None (Some [233%N; 34%N; 10%N; 128512%N]) None None None
       None None None None None None (Some []))
  = Ok (lit "{" ++ quoted "level" ++ lit ": null, " ++ quoted "title"
        ++ lit ": " ++ [DQUOTE; 233%N; BACKSLASH; DQUOTE; BACKSLASH; 110%N;
                        128512%N; DQUOTE]
        ++ lit ", " ++ quoted "file_name" ++ lit ": null, "
        ++ quoted "file_record_id" ++ lit ": null, "
        ++ quoted "file_original_name" ++ lit ": null, "
        ++ quoted "file_original_path" ++ lit ": null, "
        ++ quoted "source" ++ lit ": null, "
        ++ quoted "value_stream" ++ lit ": null, "
        ++ quoted "categories" ++ lit ": null, "
        ++ quoted "parent_file_name" ++ lit ": null, "
        ++ quoted "attachment_type" ++ lit ": null, "
        ++ quoted "owner" ++ lit ": " ++ [DQUOTE; DQUOTE] ++ lit "}").
Proof. vm_compute. reflexivity. Qed.

(** ** Required fields (lines 77-143) *)

Section Required.

Variable repr : value -> pystr.

Lemma pystr_eqb_eq (a b : pystr) : pystr_eqb a b = true <-> a = b.
Proof.
  revert b. induction a as [|x a IH]; intros [|y b]; simpl;
    try (split; [discriminate | intros H; discriminate H]);
    try tauto.
  rewrite andb_true_iff, N.eqb_eq, IH.
  split; [intros [-> ->]; reflexivity | intros H; injection H; auto].
Qed.

Lemma pystr_eqb_refl (a : pystr) : pystr_eqb a a = true.
Proof. apply pystr_eqb_eq. reflexivity. Qed.

Lemma dict_lookup_remove_same (k : pystr) (d : list (pystr * value)) :
  dict_lookup k (dict_remove k d) = None.
Proof.
  induction d as [|[k' v] d IH]; simpl; [reflexivity|].
  destruct (pystr_eqb k k') eqn:E; [exact IH|].
  simpl. rewrite E. exact IH.
Qed.

Lemma dict_lookup_remove_other (k k' : pystr) (d : list (pystr * value)) :
  pystr_eqb k' k = false ->
  dict_lookup k' (dict_remove k d) = dict_lookup k' d.
Proof.
  intros Hne. induction d as [|[k0 v] d IH]; simpl; [reflexivity|].
  destruct (pystr_eqb k k0) eqn:E.
  - apply pystr_eqb_eq in E. subst k0. rewrite Hne. exact IH.
  - simpl. rewrite IH. reflexivity.
Qed.

Lemma dict_lookup_update_same (k : pystr) (f : value -> value)
  (d : list (pystr * value)) :
  dict_lookup k (dict_update k f d) = option_map f (dict_lookup k d).
Proof.
  induction d as [|[k0 v] d IH]; simpl; [reflexivity|].
  destruct (pystr_eqb k k0) eqn:E; simpl; rewrite E; [reflexivity | exact IH].
Qed.

Lemma dict_lookup_update_other (k k' : pystr) (f : value -> value)
  (d : list (pystr * value)) :
  pystr_eqb k' k = false ->
  dict_lookup k' (dict_update k f d) = dict_lookup k' d.
Proof.
  intros Hne. induction d as [|[k0 v] d IH]; simpl; [reflexivity|].
  destruct (pystr_eqb k k0) eqn:E; simpl.
  - apply pystr_eqb_eq in E. subst k0. rewrite Hne. reflexivity.
  - rewrite IH. reflexivity.
Qed.

(** Each statement block reads [fields] through one subscript. *)

Lemma labels_str_of_dict (fd : list (pystr * value)) :
  labels_str_of (VDict fd)
  = match dict_lookup (lit "labels") fd with
    | Some labels => str_join (lit ", ") labels
    | None => Raise (KeyError (key "labels"))
    end.
Proof.
  unfold labels_str_of, key. rewrite getitem_dict.
  destruct (dict_lookup (lit "labels") fd); reflexivity.
Qed.

Lemma desc_of_dict (fd : list (pystr * value)) :
  desc_of (VDict fd)
  = match dict_lookup (lit "description") fd with
    | Some description =>
        lines <- py_splitlines description ;;
        Ok (join (lit " ") (filter nonblank lines))
    | None => Raise (KeyError (key "description"))
    end.
Proof.
  unfold desc_of, key. rewrite getitem_dict.
  destruct (dict_lookup (lit "description") fd); reflexivity.
Qed.

Lemma acfn_of_dict (fd : list (pystr * value)) :
  acfn_of (VDict fd)
  = match dict_lookup (lit "customfield_27708") fd with
    | Some cf =>
        if py_truthy cf then
          lines <- py_splitlines cf ;;
          Ok (join [LF] (filter nonblank lines))
        else Ok []
    | None => Raise (KeyError (key "customfield_27708"))
    end.
Proof.
  unfold acfn_of, key. rewrite !getitem_dict.
  destruct (dict_lookup (lit "customfield_27708") fd); reflexivity.
Qed.

Lemma mafn_of_dict (fd : list (pystr * value)) :
  mafn_of (VDict fd)
  = match dict_lookup (lit "customfield_26615") fd with
    | Some cf =>
        if py_truthy cf then
          first <- py_getitem cf (VInt 0) ;;
          py_getitem first (key "value")
        else Ok (VStr [])
    | None => Raise (KeyError (key "customfield_26615"))
    end.
Proof.
  unfold mafn_of, key. rewrite !getitem_dict.
  destruct (dict_lookup (lit "customfield_26615") fd); reflexivity.
Qed.


(** The two optional fields give empty text when present and null. *)
Lemma optional_fields_default (fd : list (pystr * value)) :
  (dict_lookup (lit "customfield_27708") fd = Some VNone ->
   acfn_of (VDict fd) = Ok [])
  /\ (dict_lookup (lit "customfield_26615") fd = Some VNone ->
      mafn_of (VDict fd) = Ok (VStr [])).
Proof.
  split; intros H.
  - rewrite acfn_of_dict, H. reflexivity.
  - rewrite mafn_of_dict, H. reflexivity.
Qed.

(** What a successful [md_dict_of] tells about the fields. *)
Lemma md_dict_of_ok (fields mdict : value) :
  md_dict_of fields = Ok mdict ->
  exists fd ls ds ac ma sm sd sn up itd itn,
    fields = VDict fd
    /\ labels_str_of fields = Ok ls
    /\ desc_of fields = Ok ds
    /\ acfn_of fields = Ok ac
    /\ mafn_of fields = Ok ma
    /\ dict_lookup (lit "summary") fd = Some sm
    /\ dict_lookup (lit "status") fd = Some (VDict sd)
    /\ dict_lookup (lit "name") sd = Some sn
    /\ dict_lookup (lit "updated") fd = Some up
    /\ dict_lookup (lit "issuetype") fd = Some (VDict itd)
    /\ dict_lookup (lit "name") itd = Some itn
    /\ mdict = VDict
                 [ (lit "summary", sm);
                   (lit "description", VStr ds);
                   (lit "status", sn);
                   (lit "updated", up);
                   (lit "issuetype", itn);
                   (lit "labels", VStr ls);
                   (lit "marketAffectedFieldName", ma);
                   (lit "acceptanceCriteriaFieldName", VStr ac) ].
Proof.
  unfold md_dict_of. intros H.
  destruct (labels_str_of fields) as [ls|] eqn:Els; [|discriminate].
  cbn [bind] in H.
  destruct (desc_of fields) as [ds|] eqn:Eds; [|discriminate].
  cbn [bind] in H.
  destruct (acfn_of fields) as [ac|] eqn:Eac; [|discriminate].
  cbn [bind] in H.
  destruct (mafn_of fields) as [ma|] eqn:Ema; [|discriminate].
  cbn [bind] in H. unfold key in H.
  destruct (py_getitem fields (VStr (lit "summary"))) as [sm|] eqn:Esm;
    [|discriminate].
  apply getitem_key_ok in Esm. destruct Esm as (fd & -> & Esm).
  cbn [bind] in H. rewrite !getitem_dict in H.
  destruct (dict_lookup (lit "status") fd) as [st|] eqn:Est; [|discriminate].
  cbn [bind] in H.
  destruct (py_getitem st (VStr (lit "name"))) as [sn|] eqn:Esn;
    [|discriminate].
  apply getitem_key_ok in Esn. destruct Esn as (sd & -> & Esn).
  cbn [bind] in H.
  destruct (dict_lookup (lit "updated") fd) as [up|] eqn:Eup; [|discriminate].
  destruct (dict_lookup (lit "issuetype") fd) as [it|] eqn:Eit;
    [|discriminate].
  cbn [bind] in H.
  destruct (py_getitem it (VStr (lit "name"))) as [itn|] eqn:Eitn;
    [|discriminate].
  apply getitem_key_ok in Eitn. destruct Eitn as (itd & -> & Eitn).
  cbn [bind] in H. injection H as <-.
  exists fd, ls, ds, ac, ma, sm, sd, sn, up, itd, itn.
  repeat split; assumption || reflexivity.
Qed.

Lemma getitem_zero_dict (issues : value) (main : list (pystr * value)) :
  py_getitem issues (VInt 0) = Ok (VDict main) ->
  exists subs, issues = VList (VDict main :: subs).
Proof.
  destruct issues as [| | | s | l | |]; simpl; try discriminate.
  - unfold seq_index. simpl. destruct s; simpl; discriminate.
  - unfold seq_index. simpl. destruct l as [|m l]; simpl; [discriminate|].
    intros H. injection H as ->. eauto.
Qed.

(** What a successful extraction tells about the document. *)
Lemma extract_main_ok (json_result : value) (x : extracted) :
  extract json_result true = Ok x ->
  exists d main subs,
    json_result = VDict d
    /\ dict_lookup (lit "issues") d = Some (VList (VDict main :: subs))
    /\ x_main_task x = VDict main
    /\ (exists fields,
           dict_lookup (lit "fields") main = Some fields
           /\ md_dict_of fields = Ok (x_md_dict x)
           /\ attach_list_of fields = Ok (x_attach_list x))
    /\ dict_lookup (lit "key") main = Some (x_file_name x)
    /\ sub_task_list_of json_result = Ok (x_sub_task_list x).
Proof.
  unfold extract, main_task_of, key. intros H.
  destruct (py_getitem json_result (VStr (lit "issues"))) as [issues|] eqn:Ei;
    [|discriminate].
  apply getitem_key_ok in Ei. destruct Ei as (d & -> & Ei).
  cbn [bind] in H.
  destruct (py_getitem issues (VInt 0)) as [mt|] eqn:Em; [|discriminate].
  cbn [bind] in H.
  destruct (py_getitem mt (VStr (lit "fields"))) as [f|] eqn:Ef;
    [|discriminate].
  apply getitem_key_ok in Ef. destruct Ef as (main & -> & Ef).
  cbn [bind] in H. rewrite getitem_dict in H.
  destruct (dict_lookup (lit "key") main) as [k|] eqn:Ek; [|discriminate].
  cbn [bind] in H.
  destruct (md_dict_of f) as [md|] eqn:Emd; [|discriminate].
  cbn [bind] in H.
  destruct (attach_list_of f) as [al|] eqn:Eal; [|discriminate].
  cbn [bind] in H.
  destruct (sub_task_list_of (VDict d)) as [sl|] eqn:Esl; [|discriminate].
  cbn [bind] in H. injection H as <-. cbn.
  destruct (getitem_zero_dict _ Em) as [subs ->].
  exists d, main, subs. repeat split; try assumption.
  exists f. repeat split; assumption.
Qed.

(** *** The report of an extracted task is always rendered *)

Lemma format_md_dict (v1 v2 v3 v4 v5 v6 v7 v8 : value) :
  exists main,
    str_format repr main_task_template
      (VDict [ (lit "summary", v1); (lit "description", v2);
               (lit "status", v3); (lit "updated", v4);
               (lit "issuetype", v5); (lit "labels", v6);
               (lit "marketAffectedFieldName", v7);
               (lit "acceptanceCriteriaFieldName", v8) ])
    = Ok main.
Proof. eexists. reflexivity. Qed.

Lemma attach_entry_format (info entry : value) :
  attach_entry info = Ok entry ->
  exists block, str_format repr attachment_template entry = Ok block.
Proof.
  unfold attach_entry. intros H.
  repeat match type of H with
         | bind ?c _ = Ok _ =>
             destruct c; [cbn [bind] in H | discriminate H]
         end.
  injection H as <-. eexists. reflexivity.
Qed.

Lemma sub_task_entry_format (sub entry : value) :
  sub_task_entry sub = Ok entry ->
  exists block, str_format repr sub_tasks_template entry = Ok block.
Proof.
  unfold sub_task_entry. intros H.
  repeat match type of H with
         | bind ?c _ = Ok _ =>
             destruct c; [cbn [bind] in H | discriminate H]
         end.
  injection H as <-. eexists. reflexivity.
Qed.

Lemma mapM_then {A B C} (f : A -> result B) (g : B -> result C)
  (l : list A) (r : list B) :
  (forall a b, f a = Ok b -> exists c, g b = Ok c) ->
  mapM f l = Ok r -> exists cs, mapM g r = Ok cs.
Proof.
  intros Hfg H. apply mapM_Forall2 in H.
  induction H as [|a b l r Hab _ [cs IH]].
  - exists []. reflexivity.
  - destruct (Hfg a b Hab) as [c Hc].
    exists (c :: cs). simpl. rewrite Hc, IH. reflexivity.
Qed.

Lemma attach_list_of_ok (fields al : value) :
  attach_list_of fields = Ok al ->
  exists entries blocks,
    al = VList entries
    /\ mapM (str_format repr attachment_template) entries = Ok blocks.
Proof.
  unfold attach_list_of. intros H.
  destruct (py_getitem fields (key "attachment")) as [a|]; [|discriminate].
  cbn [bind] in H.
  destruct (py_truthy a).
  - destruct (py_iter a) as [infos|]; [|discriminate]. cbn [bind] in H.
    destruct (mapM attach_entry infos) as [entries|] eqn:E; [|discriminate].
    cbn [bind] in H. injection H as <-.
    destruct (@mapM_then _ _ _ attach_entry
                (str_format repr attachment_template) infos entries
                attach_entry_format E) as [blocks Hb].
    exists entries, blocks. split; [reflexivity | exact Hb].
  - injection H as <-. exists [], []. split; reflexivity.
Qed.

Lemma sub_task_list_of_ok (json_result sl : value) :
  sub_task_list_of json_result = Ok sl ->
  exists entries blocks,
    sl = VList entries
    /\ mapM (str_format repr sub_tasks_template) entries = Ok blocks.
Proof.
  unfold sub_task_list_of. intros H.
  destruct (py_getitem json_result (key "issues")) as [issues|];
    [|discriminate].
  cbn [bind] in H.
  destruct (py_len issues) as [n|]; [|discriminate]. cbn [bind] in H.
  destruct (Z.ltb 1 n).
  - destruct (py_slice_from1 issues) as [others|]; [|discriminate].
    cbn [bind] in H.
    destruct (py_iter others) as [items|]; [|discriminate].
    cbn [bind] in H. rewrite append_sub_tasks_mapM in H.
    destruct (mapM sub_task_entry items) as [entries|] eqn:E; [|discriminate].
    cbn [bind app] in H. injection H as <-.
    destruct (@mapM_then _ _ _ sub_task_entry
                (str_format repr sub_tasks_template) items entries
                sub_task_entry_format E) as [blocks Hb].
    exists entries, blocks. split; [reflexivity | exact Hb].
  - injection H as <-. exists [], []. split; reflexivity.
Qed.

Lemma create_md_file_extracted (fields json_result mdict al sl : value) :
  md_dict_of fields = Ok mdict ->
  attach_list_of fields = Ok al ->
  sub_task_list_of json_result = Ok sl ->
  exists report, create_md_file repr mdict al sl = Ok report.
Proof.
  intros Hmd Hal Hsl.
  destruct (@md_dict_of_ok fields mdict Hmd)
    as (fd & ls & ds & ac & ma & sm & sd & sn & up & itd & itn & _ & _ & _
        & _ & _ & _ & _ & _ & _ & _ & _ & ->).
  destruct (@attach_list_of_ok fields al Hal) as (ae & ab & -> & Hab).
  destruct (@sub_task_list_of_ok json_result sl Hsl) as (se & sb & -> & Hsb).
  destruct (format_md_dict sm (VStr ds) sn up itn (VStr ls) ma (VStr ac))
    as [main Hmain].
  rewrite create_md_file_closed_form, Hmain, Hab, Hsb.
  eexists. reflexivity.
Qed.

End Required.

Ltac lookups :=
  repeat first
    [ rewrite dict_lookup_remove_same
    | rewrite dict_lookup_update_same
    | rewrite dict_lookup_remove_other by reflexivity
    | rewrite dict_lookup_update_other by reflexivity ].

Section RequiredFields.

Variable repr : value -> pystr.



Lemma proc_task_body_steps (rid fn json_result : value) :
  proc_task_body repr rid fn json_result true
  = (main_task <- main_task_of json_result true ;;
     fields <- py_getitem main_task (key "fields") ;;
     file_name <- py_getitem main_task (key "key") ;;
     md_dict <- md_dict_of fields ;;
     attach_list <- attach_list_of fields ;;
     sub_task_list <- sub_task_list_of json_result ;;
     report <- create_md_file repr md_dict attach_list sub_task_list ;;
     meta <- main_meta_of rid fn main_task md_dict ;;
     Ok (report, meta, file_name)).
Proof.
  unfold proc_task_body, extract.
  destruct (main_task_of json_result true) as [mt|]; [|reflexivity].
  cbn [bind].
  destruct (py_getitem mt (key "fields")) as [f|]; [|reflexivity].
  cbn [bind].
  destruct (py_getitem mt (key "key")) as [k|]; [|reflexivity].
  cbn [bind].
  destruct (md_dict_of f) as [md|]; [|reflexivity]. cbn [bind].
  destruct (attach_list_of f) as [al|]; [|reflexivity]. cbn [bind].
  destruct (sub_task_list_of json_result) as [sl|]; reflexivity.
Qed.

End RequiredFields.











(** * Further properties *)

Unset Implicit Arguments.

(** ** [proc] (lines 146-149) *)

(** X2: [proc] never returns: for every document and every state of the
    random source it ends with the [TypeError] raised by line 76 of
    [proc_task], having consumed one draw of the random source. *)
Theorem proc_always_raises :
  forall (repr : value -> pystr) (json_result : value) (w : entropy),
    fst (proc repr json_result w) = Raise TypeError
    /\ snd (proc repr json_result w) = snd (uuid4 w).
Proof.
  intros repr json_result w.
  pose proof (proc_task_type_error repr json_result true w) as H.
  unfold proc. unfold proc_task in *.
  destruct (uuid4 w) as [rid w']. simpl in H |- *.
  rewrite H. split; reflexivity.
Qed.

(** ** Filling a template (lines 5-33) *)

Section Templates.

Variable repr : value -> pystr.

Lemma format_from_none_cons (d : list (pystr * value)) (c : N) (rest : pystr) :
  N.eqb c 123 = false -> N.eqb c 125 = false ->
  format_from repr d None (c :: rest)
  = (r <- format_from repr d None rest ;; Ok (c :: r)).
Proof. intros H1 H2. simpl. rewrite H1, H2. reflexivity. Qed.

Lemma format_from_some_cons (d : list (pystr * value)) (c : N)
  (n rest : pystr) :
  N.eqb c 125 = false -> is_name_char c = true ->
  format_from repr d (Some n) (c :: rest)
  = format_from repr d (Some (c :: n)) rest.
Proof. intros H1 H2. simpl. rewrite H1, H2. reflexivity. Qed.

Lemma format_from_some_close (d : list (pystr * value)) (n rest : pystr) :
  format_from repr d (Some n) (125%N :: rest)
  = (v <- field_value d (rev n) ;;
     r <- format_from repr d None rest ;;
     Ok (py_str repr v ++ r)).
Proof. reflexivity. Qed.

Lemma format_from_open (d : list (pystr * value)) (c : N) (rest : pystr) :
  N.eqb c 123 = false ->
  format_from repr d None (123%N :: c :: rest)
  = format_from repr d (Some []) (c :: rest).
Proof. intros H. simpl. rewrite H. reflexivity. Qed.

Lemma format_from_text (d : list (pystr * value)) (t rest : pystr) :
  plain t = true ->
  format_from repr d None (t ++ rest)
  = (r <- format_from repr d None rest ;; Ok (t ++ r)).
Proof.
  unfold plain. induction t as [|c t IH]; intros H.
  - simpl. destruct (format_from repr d None rest); reflexivity.
  - simpl in H. apply andb_true_iff in H. destruct H as [Hc Ht].
    apply andb_true_iff in Hc. destruct Hc as [H1 H2].
    apply negb_true_iff in H1. apply negb_true_iff in H2.
    cbn [app]. rewrite (format_from_none_cons d c _ H1 H2), (IH Ht).
    destruct (format_from repr d None rest); reflexivity.
Qed.

Lemma name_char_not_brace (c : N) :
  is_name_char c = true -> N.eqb c 125 = false /\ N.eqb c 123 = false.
Proof.
  unfold is_name_char. intros H.
  split; apply N.eqb_neq; intros ->; discriminate H.
Qed.

Lemma format_from_name (d : list (pystr * value)) (name acc rest : pystr) :
  forallb is_name_char name = true ->
  format_from repr d (Some acc) (name ++ 125%N :: rest)
  = (v <- field_value d (rev acc ++ name) ;;
     r <- format_from repr d None rest ;;
     Ok (py_str repr v ++ r)).
Proof.
  revert acc. induction name as [|c name IH]; intros acc H.
  - cbn [app]. rewrite format_from_some_close, app_nil_r. reflexivity.
  - simpl in H. apply andb_true_iff in H. destruct H as [Hc Hn].
    destruct (name_char_not_brace c Hc) as [H125 _].
    cbn [app]. rewrite (format_from_some_cons d c acc _ H125 Hc).
    etransitivity; [exact (IH (c :: acc) Hn)|].
    simpl rev. rewrite <- app_assoc. reflexivity.
Qed.

Lemma format_from_field (d : list (pystr * value)) (name rest : pystr) :
  forallb is_name_char name = true ->
  format_from repr d None (123%N :: name ++ 125%N :: rest)
  = (v <- field_value d name ;;
     r <- format_from repr d None rest ;;
     Ok (py_str repr v ++ r)).
Proof.
  intros H.
  assert (E : format_from repr d None (123%N :: name ++ 125%N :: rest)
              = format_from repr d (Some []) (name ++ 125%N :: rest)).
  { destruct name as [|c name].
    - apply format_from_open. reflexivity.
    - cbn [app]. apply format_from_open.
      simpl in H. apply andb_true_iff in H. destruct H as [Hc _].
      apply (name_char_not_brace c Hc). }
  rewrite E. apply (format_from_name d name [] rest H).
Qed.

Lemma format_from_segments (d : list (pystr * value)) (segs : list segment) :
  forallb well_formed_segment segs = true ->
  format_from repr d None (template_of segs) = fill (py_str repr) d segs.
Proof.
  induction segs as [|s segs IH]; intros H; [reflexivity|].
  simpl in H. apply andb_true_iff in H. destruct H as [Hs Hrest].
  unfold template_of in *. cbn [flat_map].
  destruct s as [t|n]; cbn [segment_text fill well_formed_segment] in *.
  - rewrite (format_from_text d t _ Hs), (IH Hrest). reflexivity.
  - apply andb_true_iff in Hs. destruct Hs as [Hn _].
    cbn [app]. rewrite <- app_assoc. cbn [app].
    rewrite (format_from_field d n _ Hn), (IH Hrest). reflexivity.
Qed.

Lemma field_value_keyword (d : list (pystr * value)) (n : pystr) :
  forallb is_digit n = false ->
  field_value d n
  = match dict_lookup n d with
    | Some v => Ok v
    | None => Raise (KeyError (VStr n))
    end.
Proof. intros H. unfold field_value. rewrite H. reflexivity. Qed.

(** A template is filled when the mapping has all its fields, and raises
    [KeyError] for the first one it lacks. *)
Lemma fill_spec (d : list (pystr * value)) (segs : list segment) :
  forallb well_formed_segment segs = true ->
  fill (py_str repr) d segs
  = match first_missing d segs with
    | Some n => Raise (KeyError (VStr n))
    | None => Ok (filled (py_str repr) d segs)
    end.
Proof.
  unfold first_missing.
  induction segs as [|s segs IH]; intros H; [reflexivity|].
  simpl in H. apply andb_true_iff in H. destruct H as [Hs Hrest].
  specialize (IH Hrest).
  destruct s as [t|n]; cbn [fill filled].
  - change (field_names (Text t :: segs)) with (field_names segs).
    rewrite IH.
    destruct (find _ (field_names segs)); reflexivity.
  - change (field_names (Field n :: segs)) with (n :: field_names segs).
    cbn [find].
    cbn [well_formed_segment] in Hs.
    apply andb_true_iff in Hs. destruct Hs as [_ Hd].
    apply negb_true_iff in Hd.
    rewrite (field_value_keyword d n Hd).
    destruct (dict_lookup n d) as [v|]; [|reflexivity].
    cbn [bind]. rewrite IH.
    destruct (find _ (field_names segs)); reflexivity.
Qed.

Lemma str_format_segments (d : list (pystr * value)) (segs : list segment) :
  forallb well_formed_segment segs = true ->
  str_format repr (template_of segs) (VDict d)
  = match first_missing d segs with
    | Some n => Raise (KeyError (VStr n))
    | None => Ok (filled (py_str repr) d segs)
    end.
Proof.
  intros H. unfold str_format.
  rewrite (format_from_segments d segs H). apply fill_spec. exact H.
Qed.

End Templates.

(** X3: the main block of the report.  For every mapping, filling
    [main_task_template] gives the template's text with each of the
    eight fields replaced by [str] of its value, inserted as it is
    (braces in a value are not read as fields, further keys are
    ignored); when the mapping lacks a field, the result is the
    [KeyError] of the first missing field in the order of the template,
    whatever the attachment and sub-task lists are. *)
Theorem main_block_rule :
  forall (repr : value -> pystr) (d : list (pystr * value))
         (attach_list sub_task_list : value),
    str_format repr main_task_template (VDict d)
    = match first_missing d main_task_segments with
      | Some n => Raise (KeyError (VStr n))
      | None => Ok (filled (py_str repr) d main_task_segments)
      end
    /\ (forall n,
           first_missing d main_task_segments = Some n ->
           create_md_file repr (VDict d) attach_list sub_task_list
           = Raise (KeyError (VStr n))).
Proof.
  intros repr d al sl.
  assert (H : str_format repr main_task_template (VDict d)
              = match first_missing d main_task_segments with
                | Some n => Raise (KeyError (VStr n))
                | None => Ok (filled (py_str repr) d main_task_segments)
                end).
  { change main_task_template with (template_of main_task_segments).
    apply str_format_segments. reflexivity. }
  split; [exact H|].
  intros n Hn. unfold create_md_file. rewrite H, Hn. reflexivity.
Qed.

Lemma main_block_rule_witness :
  create_md_file sample_repr
    (dict [ ("summary", key "{x}"); ("status", key "Open") ]%string)
    (VList []) VNone
  = Raise (KeyError (key "description")).
Proof.
  exact (proj2 (main_block_rule sample_repr
                  [ (lit "summary", key "{x}"); (lit "status", key "Open") ]
                  (VList []) VNone)
           (lit "description") eq_refl).
Defined.

(** X4: the blocks of the lists.  Filling [attachment_template] and
    [sub_tasks_template] with a mapping gives the template's text with
    the fields replaced by [str] of their values, or the [KeyError] of
    the first field the mapping lacks. *)
Theorem list_block_rule :
  forall (repr : value -> pystr) (d : list (pystr * value)),
    str_format repr attachment_template (VDict d)
    = match first_missing d attachment_segments with
      | Some n => Raise (KeyError (VStr n))
      | None => Ok (filled (py_str repr) d attachment_segments)
      end
    /\ str_format repr sub_tasks_template (VDict d)
       = match first_missing d sub_tasks_segments with
         | Some n => Raise (KeyError (VStr n))
         | None => Ok (filled (py_str repr) d sub_tasks_segments)
         end.
Proof.
  intros repr d. split.
  - change attachment_template with (template_of attachment_segments).
    apply str_format_segments. reflexivity.
  - change sub_tasks_template with (template_of sub_tasks_segments).
    apply str_format_segments. reflexivity.
Qed.

(** ** The report of an extracted task (lines 77-126) *)

Lemma extract_ok_parts (json_result : value) (is_main_task : bool)
  (x : extracted) :
  extract json_result is_main_task = Ok x ->
  exists fields,
    md_dict_of fields = Ok (x_md_dict x)
    /\ attach_list_of fields = Ok (x_attach_list x)
    /\ sub_task_list_of json_result = Ok (x_sub_task_list x).
Proof.
  unfold extract. intros H.
  destruct (main_task_of json_result is_main_task) as [mt|]; [|discriminate].
  cbn [bind] in H.
  destruct (py_getitem mt (key "fields")) as [f|]; [|discriminate].
  cbn [bind] in H.
  destruct (py_getitem mt (key "key")) as [k|]; [|discriminate].
  cbn [bind] in H.
  destruct (md_dict_of f) as [md|] eqn:Emd; [|discriminate].
  cbn [bind] in H.
  destruct (attach_list_of f) as [al|] eqn:Eal; [|discriminate].
  cbn [bind] in H.
  destruct (sub_task_list_of json_result) as [sl|] eqn:Esl; [|discriminate].
  cbn [bind] in H. injection H as <-. exists f. auto.
Qed.

(** X5: whenever the extraction of lines 77-123 succeeds, rendering its
    three results with [create_md_file] succeeds too: the mapping has the
    eight fields of the main template and every attachment and sub-task
    entry has the fields of its template. *)
Theorem extracted_report_renders :
  forall (repr : value -> pystr) (json_result : value) (is_main_task : bool)
         (x : extracted),
    extract json_result is_main_task = Ok x ->
    exists report,
      create_md_file repr (x_md_dict x) (x_attach_list x) (x_sub_task_list x)
      = Ok report.
Proof.
  intros repr json_result is_main_task x H.
  destruct (@extract_ok_parts json_result is_main_task x H)
    as (fields & Hmd & Hal & Hsl).
  exact (@create_md_file_extracted repr fields json_result _ _ _ Hmd Hal Hsl).
Qed.

Lemma extracted_report_renders_witness :
  exists x report,
    extract sample_document true = Ok x
    /\ create_md_file sample_repr (x_md_dict x) (x_attach_list x)
         (x_sub_task_list x) = Ok report.
Proof.
  destruct (extract sample_document true) as [x|] eqn:H;
    [|vm_compute in H; discriminate H].
  destruct (@extracted_report_renders sample_repr sample_document true x H)
    as [report Hr].
  exists x, report. split; [reflexivity | exact Hr].
Defined.

(** ** Normalised texts (lines 87-91) *)

Section Normalised.

(** Every line given by [splitlines] is free of line breaks. *)
Lemma splitlines_from_no_linebreak (n : nat) :
  forall (s cur : pystr),
    List.length s <= n ->
    no_linebreak cur = true ->
    Forall (fun line => no_linebreak line = true) (splitlines_from cur s).
Proof.
  assert (Hrev : forall cur, no_linebreak cur = true ->
                             no_linebreak (rev cur) = true).
  { intros cur H. unfold no_linebreak in *.
    apply forallb_forall. intros c Hc. apply in_rev in Hc.
    rewrite forallb_forall in H. apply H. exact Hc. }
  induction n as [|n IH]; intros s cur Hlen Hcur.
  - destruct s; [|simpl in Hlen; lia]. simpl.
    destruct cur; constructor; [apply Hrev; exact Hcur | constructor].
  - destruct s as [|c rest].
    + simpl. destruct cur; constructor; [apply Hrev; exact Hcur | constructor].
    + simpl in Hlen. cbn [splitlines_from].
      destruct (is_linebreak c) eqn:Hc.
      * constructor; [apply Hrev; exact Hcur|].
        destruct (N.eqb c CR).
        -- destruct rest as [|c' rest']; [apply IH; [simpl; lia | reflexivity]|].
           destruct (N.eqb c' LF).
           ++ apply IH; [simpl in Hlen; lia | reflexivity].
           ++ apply IH; [lia | reflexivity].
        -- apply IH; [lia | reflexivity].
      * apply IH; [lia|]. unfold no_linebreak in *. simpl.
        rewrite Hc, Hcur. reflexivity.
Qed.

Lemma join_no_linebreak (sep : pystr) (lines : list pystr) :
  no_linebreak sep = true ->
  Forall (fun line => no_linebreak line = true) lines ->
  no_linebreak (join sep lines) = true.
Proof.
  intros Hsep H. induction H as [|l ls Hl _ IH]; [reflexivity|].
  destruct ls as [|l' ls]; [exact Hl|].
  change (join sep (l :: l' :: ls)) with (l ++ sep ++ join sep (l' :: ls)).
  unfold no_linebreak in *. rewrite !forallb_app, Hl, Hsep, IH. reflexivity.
Qed.

Lemma Forall_filter {A} (P : A -> Prop) (f : A -> bool) (l : list A) :
  Forall P l -> Forall P (filter f l).
Proof.
  induction 1 as [|x l Hx _ IH]; simpl; [constructor|].
  destruct (f x); [constructor; assumption | assumption].
Qed.

(** A text free of line breaks is its own single line. *)
Lemma splitlines_from_line (line cur rest : pystr) :
  no_linebreak line = true ->
  splitlines_from cur (line ++ rest) = splitlines_from (rev line ++ cur) rest.
Proof.
  revert cur. induction line as [|c line IH]; intros cur H; [reflexivity|].
  unfold no_linebreak in H. simpl in H.
  apply andb_true_iff in H. destruct H as [Hc Hl].
  apply negb_true_iff in Hc.
  cbn [app splitlines_from]. rewrite Hc, (IH (c :: cur) Hl).
  simpl rev. rewrite <- app_assoc. reflexivity.
Qed.

Lemma str_splitlines_line (line : pystr) :
  no_linebreak line = true -> line <> [] -> str_splitlines line = [line].
Proof.
  intros H Hne. unfold str_splitlines.
  rewrite <- (app_nil_r line) at 1.
  rewrite (splitlines_from_line line [] [] H). rewrite app_nil_r.
  simpl. destruct (rev line) eqn:E.
  - apply (f_equal (@rev N)) in E. rewrite rev_involutive in E.
    contradiction.
  - rewrite <- E, rev_involutive. reflexivity.
Qed.

Lemma str_splitlines_join (lines : list pystr) :
  Forall (fun line => no_linebreak line = true /\ line <> []) lines ->
  str_splitlines (join [LF] lines) = lines.
Proof.
  unfold str_splitlines.
  induction 1 as [|l ls [Hl Hne] Hls IH]; [reflexivity|].
  destruct ls as [|l' ls].
  - apply str_splitlines_line; assumption.
  - change (join [LF] (l :: l' :: ls))
      with (l ++ LF :: join [LF] (l' :: ls)).
    rewrite (splitlines_from_line l [] _ Hl). rewrite app_nil_r.
    cbn [splitlines_from].
    change (is_linebreak LF) with true. change (N.eqb LF CR) with false.
    cbv iota. rewrite rev_involutive, IH. reflexivity.
Qed.

Lemma nonblank_nonempty (line : pystr) : nonblank line = true -> line <> [].
Proof. intros H ->. discriminate H. Qed.

Lemma filter_all {A} (f : A -> bool) (l : list A) :
  Forall (fun x => f x = true) l -> filter f l = l.
Proof.
  induction 1 as [|x l Hx _ IH]; simpl; [reflexivity|].
  rewrite Hx, IH. reflexivity.
Qed.

Lemma filter_Forall {A} (f : A -> bool) (l : list A) :
  Forall (fun x => f x = true) (filter f l).
Proof.
  induction l as [|x l IH]; simpl; [constructor|].
  destruct (f x) eqn:E; [constructor; assumption | assumption].
Qed.

(** The lines kept by lines 87 and 89: not blank, free of line breaks. *)
Lemma kept_lines (s : pystr) :
  Forall (fun line => nonblank line = true) (filter nonblank (str_splitlines s))
  /\ Forall (fun line => no_linebreak line = true)
       (filter nonblank (str_splitlines s)).
Proof.
  split; [apply filter_Forall|].
  apply Forall_filter. unfold str_splitlines.
  apply (splitlines_from_no_linebreak (List.length s)); auto.
Qed.

Lemma is_blank_app (a b : pystr) :
  is_blank (a ++ b) = is_blank a && is_blank b.
Proof. unfold is_blank. apply forallb_app. Qed.

Lemma join_nonblank (sep : pystr) (l : pystr) (ls : list pystr) :
  nonblank l = true -> nonblank (join sep (l :: ls)) = true.
Proof.
  intros H. rewrite nonblank_not_blank in *.
  destruct ls as [|l' ls]; [exact H|].
  change (join sep (l :: l' :: ls)) with (l ++ sep ++ join sep (l' :: ls)).
  rewrite is_blank_app. apply negb_true_iff in H. rewrite H. reflexivity.
Qed.

End Normalised.

Lemma desc_of_ok (fields : value) (ds : pystr) :
  desc_of fields = Ok ds ->
  exists s, ds = join (lit " ") (filter nonblank (str_splitlines s)).
Proof.
  unfold desc_of. intros H.
  destruct (py_getitem fields (key "description")) as [v|]; [|discriminate].
  cbn [bind] in H. destruct v; try discriminate H.
  cbn [py_splitlines bind] in H. injection H as <-. eauto.
Qed.

Lemma acfn_of_ok (fields : value) (ac : pystr) :
  acfn_of fields = Ok ac ->
  ac = []
  \/ exists s, ac = join [LF] (filter nonblank (str_splitlines s)).
Proof.
  unfold acfn_of. intros H.
  destruct (py_getitem fields (key "customfield_27708")) as [v|];
    [|discriminate].
  cbn [bind] in H. destruct (py_truthy v).
  - cbn [bind] in H. destruct v; try discriminate H.
    cbn [py_splitlines bind] in H. injection H as <-. eauto.
  - injection H as <-. auto.
Qed.

(** X6: the description derived at line 87 is in normal form: it holds
    no line-break character (the report shows it on one line), and
    deriving the description again from it gives it back unchanged. *)
Theorem description_normal_form :
  forall (fields : value) (ds : pystr),
    desc_of fields = Ok ds ->
    no_linebreak ds = true
    /\ desc_of (VDict [(lit "description", VStr ds)]) = Ok ds.
Proof.
  intros fields ds H.
  destruct (desc_of_ok fields ds H) as [s ->].
  destruct (kept_lines s) as [Hnb Hlb].
  assert (Hone : no_linebreak
                   (join (lit " ") (filter nonblank (str_splitlines s)))
                 = true)
    by (apply join_no_linebreak; [reflexivity | exact Hlb]).
  split; [exact Hone|].
  unfold desc_of, key. rewrite getitem_dict.
  change (dict_lookup (lit "description")
            [(lit "description",
              VStr (join (lit " ") (filter nonblank (str_splitlines s))))])
    with (Some (VStr (join (lit " ")
                        (filter nonblank (str_splitlines s))))).
  cbn [bind py_splitlines].
  destruct (filter nonblank (str_splitlines s)) as [|l ls] eqn:E.
  - reflexivity.
  - inversion Hnb as [|? ? Hl _]; subst.
    pose proof (join_nonblank (lit " ") l ls Hl) as Hj.
    rewrite (str_splitlines_line (join (lit " ") (l :: ls)) Hone
               (nonblank_nonempty _ Hj)).
    cbn [filter]. rewrite Hj. reflexivity.
Qed.

Lemma description_normal_form_witness :
  no_linebreak (lit "line1 line2") = true
  /\ desc_of (VDict [(lit "description", VStr (lit "line1 line2"))])
     = Ok (lit "line1 line2").
Proof.
  apply (description_normal_form sample_fields (lit "line1 line2")).
  vm_compute. reflexivity.
Defined.

(** X7: the acceptance criteria derived at lines 88-91 are in normal
    form: split into lines again they show no blank line and no line
    other than the ones joined, and deriving the value again from them
    gives it back unchanged. *)
Theorem acceptance_criteria_normal_form :
  forall (fields : value) (ac : pystr),
    acfn_of fields = Ok ac ->
    filter nonblank (str_splitlines ac) = str_splitlines ac
    /\ join [LF] (str_splitlines ac) = ac
    /\ acfn_of (VDict [(lit "customfield_27708", VStr ac)]) = Ok ac.
Proof.
  intros fields ac H.
  assert (Hlines : exists lines,
             ac = join [LF] lines
             /\ Forall (fun line => nonblank line = true) lines
             /\ Forall (fun line => no_linebreak line = true) lines).
  { destruct (acfn_of_ok fields ac H) as [->|[s ->]].
    - exists []. repeat split; constructor.
    - destruct (kept_lines s) as [Hnb Hlb]. eauto. }
  destruct Hlines as (lines & -> & Hnb & Hlb).
  assert (Hsplit : str_splitlines (join [LF] lines) = lines).
  { apply str_splitlines_join.
    clear H. induction Hnb as [|l ls Hl _ IH]; [constructor|].
    inversion Hlb; subst. constructor; [|apply IH; assumption].
    split; [assumption | apply nonblank_nonempty; exact Hl]. }
  rewrite Hsplit. split; [apply filter_all; exact Hnb|].
  split; [reflexivity|].
  unfold acfn_of, key. rewrite !getitem_dict.
  change (dict_lookup (lit "customfield_27708")
            [(lit "customfield_27708", VStr (join [LF] lines))])
    with (Some (VStr (join [LF] lines))).
  cbn [bind py_truthy].
  remember (join [LF] lines) as ac eqn:Eac.
  destruct ac as [|c ac']; [reflexivity|].
  cbn [bind py_splitlines]. rewrite Hsplit, (filter_all nonblank lines Hnb), Eac.
  reflexivity.
Qed.

Lemma acceptance_criteria_normal_form_witness :
  exists ac,
    acfn_of sample_criteria_fields = Ok ac
    /\ filter nonblank (str_splitlines ac) = str_splitlines ac
    /\ join [LF] (str_splitlines ac) = ac
    /\ acfn_of (VDict [(lit "customfield_27708", VStr ac)]) = Ok ac.
Proof.
  destruct (acfn_of sample_criteria_fields) as [ac|] eqn:H;
    [|vm_compute in H; discriminate H].
  exists ac. split; [reflexivity|].
  exact (acceptance_criteria_normal_form sample_criteria_fields ac H).
Defined.

Example acceptance_criteria_sample :
  acfn_of sample_criteria_fields
  = Ok (lit "Given a user" ++ [LF] ++ lit "  then login works").
Proof. vm_compute. reflexivity. Qed.

(** ** A description that is not text (line 87) *)

Lemma main_task_of_with_field (p : list pystr) (v : value)
  (d main : list (pystr * value)) (subs : list value) :
  dict_lookup (lit "issues") d = Some (VList (VDict main :: subs)) ->
  main_task_of (with_field p v (VDict d)) true
  = Ok (with_path p v (VDict main)).
Proof.
  intros H. unfold main_task_of, with_field, key.
  rewrite getitem_dict, dict_lookup_update_same, H. reflexivity.
Qed.

Lemma sub_task_list_of_with_field (p : list pystr) (v : value)
  (d main : list (pystr * value)) (subs : list value) :
  dict_lookup (lit "issues") d = Some (VList (VDict main :: subs)) ->
  sub_task_list_of (with_field p v (VDict d)) = sub_task_list_of (VDict d).
Proof.
  intros H. unfold sub_task_list_of, with_field, key.
  rewrite !getitem_dict, dict_lookup_update_same, H. reflexivity.
Qed.

(** X8: a description that is present but is not text (null, as an
    export gives for an empty description, a number, a list) makes lines
    77-143 raise [AttributeError] at line 87: only [str] has
    [splitlines], and no default is substituted. *)
Theorem non_text_description_raises :
  forall (repr : value -> pystr) (rid fn json_result v : value)
         (x : extracted),
    extract json_result true = Ok x ->
    is_str v = false ->
    proc_task_body repr rid fn
      (with_field [lit "fields"; lit "description"] v json_result) true
    = Raise AttributeError.
Proof.
  intros repr rid fn json_result v x Hx Hv.
  destruct (@extract_main_ok json_result x Hx)
    as (d & main & subs & -> & Hiss & Hmt & (fields & Hf & Hmd & Hal) & Hk
        & Hsl).
  destruct (@md_dict_of_ok fields (x_md_dict x) Hmd)
    as (fd & ls & ds & ac & ma & sm & sd & sn & up & itd & itn & -> & Hls
        & Hds & _).
  rewrite proc_task_body_steps.
  rewrite (@main_task_of_with_field _ v d main subs Hiss).
  rewrite (@sub_task_list_of_with_field _ v d main subs Hiss), Hsl.
  cbn [bind with_path]. unfold key. rewrite !getitem_dict. lookups.
  rewrite Hf, Hk. cbn [option_map bind].
  rewrite labels_str_of_dict in Hls. rewrite desc_of_dict in Hds.
  unfold md_dict_of. rewrite labels_str_of_dict, desc_of_dict. lookups.
  rewrite Hls. cbn [bind].
  destruct (dict_lookup (lit "description") fd) as [old|]; [|discriminate].
  cbn [option_map]. destruct v; try discriminate Hv; reflexivity.
Qed.

Lemma non_text_description_witness :
  proc_task_body sample_repr (key "id") (key "id.md")
    (with_field [lit "fields"; lit "description"] VNone sample_document) true
  = Raise AttributeError.
Proof.
  eapply (@non_text_description_raises sample_repr (key "id") (key "id.md")
            sample_document VNone).
  - vm_compute. reflexivity.
  - reflexivity.
Defined.

(** ** [json.dumps] on every value (line 72) *)

Section Json.

(** Induction on values, through the lists and mappings they hold. *)
Lemma value_nested_ind (P : value -> Prop) :
  P VNone ->
  (forall b, P (VBool b)) ->
  (forall z, P (VInt z)) ->
  (forall s, P (VStr s)) ->
  (forall l, Forall P l -> P (VList l)) ->
  (forall d, Forall (fun kv => P (snd kv)) d -> P (VDict d)) ->
  (forall u, P (VUUID u)) ->
  forall v, P v.
Proof.
  intros HN HB HI HS HL HD HU.
  fix IH 1. intros [| b | z | s | l | d | u].
  - exact HN.
  - apply HB.
  - apply HI.
  - apply HS.
  - apply HL. induction l as [|x l IHl]; constructor; [apply IH | exact IHl].
  - apply HD. induction d as [|[k x] d IHd]; constructor;
      [apply IH | exact IHd].
  - apply HU.
Qed.

Lemma json_dumps_list (l : list value) :
  json_dumps (VList l)
  = (items <- mapM json_dumps l ;;
     Ok (lit "[" ++ join (lit ", ") items ++ lit "]")).
Proof.
  cbn [json_dumps].
  assert (E : (fix items (l : list value) : result (list pystr) :=
                 match l with
                 | [] => Ok []
                 | x :: l' =>
                     y <- json_dumps x ;; ys <- items l' ;; Ok (y :: ys)
                 end) l = mapM json_dumps l).
  { induction l as [|x l IH]; [reflexivity|].
    cbn [mapM]. rewrite <- IH. reflexivity. }
  rewrite E. reflexivity.
Qed.

Lemma json_dumps_dict (d : list (pystr * value)) :
  json_dumps (VDict d)
  = (items <- mapM (fun kv => y <- json_dumps (snd kv) ;;
                              Ok (encode_basestring (fst kv) ++ lit ": " ++ y))
                d ;;
     Ok (lit "{" ++ join (lit ", ") items ++ lit "}")).
Proof.
  cbn [json_dumps].
  assert (E : (fix items (d : list (pystr * value)) : result (list pystr) :=
                 match d with
                 | [] => Ok []
                 | (k, x) :: d' =>
                     y <- json_dumps x ;; ys <- items d' ;;
                     Ok ((encode_basestring k ++ lit ": " ++ y) :: ys)
                 end) d
              = mapM (fun kv => y <- json_dumps (snd kv) ;;
                                Ok (encode_basestring (fst kv) ++ lit ": "
                                    ++ y)) d).
  { induction d as [|[k x] d IH]; [reflexivity|].
    cbn [mapM fst snd]. rewrite <- IH.
    destruct (json_dumps x); reflexivity. }
  rewrite E. reflexivity.
Qed.

Lemma mapM_all_ok {A B} (f : A -> result B) (g : A -> B) (l : list A) :
  Forall (fun x => f x = Ok (g x)) l -> mapM f l = Ok (map g l).
Proof.
  induction 1 as [|x l Hx _ IH]; [reflexivity|].
  cbn [mapM map]. rewrite Hx, IH. reflexivity.
Qed.

Lemma mapM_first_error {A B} (f : A -> result B) (e : exn) (ok : A -> bool)
  (l : list A) :
  Forall (fun x => f x = if ok x then f x else Raise e) l ->
  Forall (fun x => ok x = true -> exists y, f x = Ok y) l ->
  forallb ok l = false ->
  mapM f l = Raise e.
Proof.
  intros H1 H2 H. induction l as [|x l IH]; [discriminate H|].
  inversion H1 as [|? ? Hx Hl]; subst.
  inversion H2 as [|? ? Hx' Hl']; subst.
  cbn [forallb] in H. cbn [mapM].
  destruct (ok x) eqn:E.
  - destruct (Hx' eq_refl) as [y Hy]. rewrite Hy. cbn [bind].
    rewrite (IH Hl Hl' H). reflexivity.
  - rewrite Hx. reflexivity.
Qed.

(** [json.dumps] writes [json_text] for a serialisable value and raises
    [TypeError] for any other. *)
Lemma json_dumps_spec (v : value) :
  json_dumps v = if serialisable v then Ok (json_text v) else Raise TypeError.
Proof.
  induction v as [| b | z | s | l IH | d IH | u] using value_nested_ind;
    try reflexivity.
  - destruct b; reflexivity.
  - rewrite json_dumps_list. cbn [serialisable json_text].
    destruct (forallb serialisable l) eqn:E.
    + rewrite (mapM_all_ok json_dumps json_text l); [reflexivity|].
      rewrite forallb_forall in E. rewrite Forall_forall in IH |- *.
      intros x Hx. rewrite (IH x Hx), (E x Hx). reflexivity.
    + rewrite (mapM_first_error json_dumps TypeError serialisable l);
        [reflexivity | | | exact E].
      * rewrite Forall_forall in IH |- *. intros x Hx.
        rewrite (IH x Hx). destruct (serialisable x); reflexivity.
      * rewrite Forall_forall in IH |- *. intros x Hx Hs.
        rewrite (IH x Hx), Hs. eauto.
  - rewrite json_dumps_dict. cbn [serialisable json_text].
    set (f := fun kv : pystr * value =>
                y <- json_dumps (snd kv) ;;
                Ok (encode_basestring (fst kv) ++ lit ": " ++ y)).
    set (g := fun kv : pystr * value =>
                encode_basestring (fst kv) ++ lit ": " ++ json_text (snd kv)).
    destruct (forallb (fun kv => serialisable (snd kv)) d) eqn:E.
    + rewrite (mapM_all_ok f g d); [reflexivity|].
      rewrite forallb_forall in E. rewrite Forall_forall in IH |- *.
      intros x Hx. unfold f, g. rewrite (IH x Hx), (E x Hx). reflexivity.
    + rewrite (mapM_first_error f TypeError
                 (fun kv => serialisable (snd kv)) d);
        [reflexivity | | | exact E].
      * rewrite Forall_forall in IH |- *. intros x Hx. unfold f.
        rewrite (IH x Hx). destruct (serialisable (snd x)); reflexivity.
      * rewrite Forall_forall in IH |- *. intros x Hx Hs. unfold f.
        rewrite (IH x Hx), Hs. cbn [bind]. eauto.
Qed.

End Json.

(** ** Numbers in JSON text *)

Section Numbers.

Lemma lit_string_of_uint (d : Decimal.uint) :
  lit (NilEmpty.string_of_uint d) = digits_of d.
Proof.
  induction d; [reflexivity | ..];
    cbn [NilEmpty.string_of_uint digits_of]; rewrite <- IHd; reflexivity.
Qed.

Lemma uint_value_of_uint_acc (d : Decimal.uint) :
  forall acc : positive,
    N.pos (Pos.of_uint_acc d acc) = uint_value (N.pos acc) d.
Proof.
  induction d; intros acc; [reflexivity | ..];
    cbn [Pos.of_uint_acc uint_value]; rewrite IHd; f_equal; lia.
Qed.

Lemma uint_value_of_uint (d : Decimal.uint) : Pos.of_uint d = uint_value 0 d.
Proof.
  induction d; [reflexivity | exact IHd | ..];
    cbn [Pos.of_uint uint_value]; rewrite uint_value_of_uint_acc;
    reflexivity.
Qed.

Lemma ends_number_not_digit (c : N) (rest : pystr) :
  ends_number (c :: rest) = true -> N.leb 48 c && N.leb c 57 = false.
Proof.
  unfold ends_number. intros H.
  destruct (N.leb 48 c && N.leb c 57); [discriminate H | reflexivity].
Qed.

Lemma ends_number_no_float (rest : pystr) :
  ends_number rest = true -> float_tail rest = false.
Proof.
  destruct rest as [|c [|c' rest]]; try reflexivity.
  unfold ends_number, float_tail. intros H.
  destruct (N.eqb c 46); [rewrite !andb_false_r in H; discriminate H
                          || (destruct (N.leb 48 c && N.leb c 57);
                              discriminate H)|].
  destruct (N.eqb c 101);
    [destruct (N.leb 48 c && N.leb c 57); discriminate H|].
  destruct (N.eqb c 69);
    [destruct (N.leb 48 c && N.leb c 57); discriminate H|].
  reflexivity.
Qed.

Lemma scan_digits_digits (d : Decimal.uint) :
  forall (acc : N) (rest : pystr),
    ends_number rest = true ->
    scan_digits acc (digits_of d ++ rest) = (uint_value acc d, rest).
Proof.
  induction d; intros acc rest H;
    [ | cbn [digits_of app scan_digits uint_value N.leb N.compare
              Pos.compare Pos.compare_cont andb N.sub Pos.sub Pos.sub_mask
              Pos.pred_double Pos.double_mask Pos.succ_double_mask
              Pos.double_pred_mask];
        try (rewrite (IHd _ rest H); reflexivity) ..].
  cbn [digits_of app uint_value].
  destruct rest as [|c rest]; [reflexivity|].
  cbn [scan_digits]. rewrite (ends_number_not_digit c rest H). reflexivity.
Qed.

Lemma nzhead_head (d : Decimal.uint) :
  match Decimal.nzhead d with
  | Decimal.D0 _ => False
  | _ => True
  end.
Proof. induction d; simpl; auto. Qed.

Lemma to_uint_head (p : positive) (l : Decimal.uint) :
  Pos.to_uint p <> Decimal.D0 l.
Proof.
  intros E.
  pose proof (DecimalPos.Unsigned.to_of (Pos.to_uint p)) as H.
  rewrite DecimalPos.Unsigned.of_to in H. simpl N.to_uint in H.
  rewrite E in H. unfold Decimal.unorm in H. cbn [Decimal.nzhead] in H.
  pose proof (nzhead_head l) as Hh.
  destruct (Decimal.nzhead l); try discriminate H; try contradiction.
  injection H as Hl. subst l.
  apply (DecimalPos.Unsigned.to_uint_nonzero p). exact E.
Qed.

(** Reading back the digits of a positive number. *)
Lemma scan_nat_pos (p : positive) (rest : pystr) :
  ends_number rest = true ->
  scan_nat (digits_of (Pos.to_uint p) ++ rest) = Some (N.pos p, rest).
Proof.
  intros H.
  pose proof (DecimalPos.Unsigned.of_to p) as Hv.
  rewrite uint_value_of_uint in Hv.
  pose proof (to_uint_head p) as Hh.
  pose proof (DecimalPos.Unsigned.to_uint_nonnil p) as Hn.
  destruct (Pos.to_uint p) as [|d|d|d|d|d|d|d|d|d|d];
    [contradiction | exfalso; apply (Hh d); reflexivity | ..];
    cbn [digits_of app scan_nat N.eqb Pos.eqb N.leb N.compare Pos.compare
         Pos.compare_cont andb];
    cbn [uint_value] in Hv;
    change (N.sub 49 48) with 1%N; change (N.sub 50 48) with 2%N;
    change (N.sub 51 48) with 3%N; change (N.sub 52 48) with 4%N;
    change (N.sub 53 48) with 5%N; change (N.sub 54 48) with 6%N;
    change (N.sub 55 48) with 7%N; change (N.sub 56 48) with 8%N;
    change (N.sub 57 48) with 9%N;
    rewrite (scan_digits_digits d _ rest H), (ends_number_no_float rest H);
    simpl N.add in Hv; rewrite Hv; reflexivity.
Qed.

Lemma int_str_pos (p : positive) : int_str (Z.pos p) = digits_of (Pos.to_uint p).
Proof.
  unfold int_str. cbn [Z.to_int NilZero.string_of_int].
  pose proof (DecimalPos.Unsigned.to_uint_nonnil p) as Hn.
  unfold NilZero.string_of_uint.
  destruct (Pos.to_uint p) eqn:E; [contradiction | ..];
    rewrite <- E; apply lit_string_of_uint.
Qed.

Lemma int_str_neg (p : positive) :
  int_str (Z.neg p) = 45%N :: digits_of (Pos.to_uint p).
Proof.
  unfold int_str. cbn [Z.to_int NilZero.string_of_int].
  pose proof (DecimalPos.Unsigned.to_uint_nonnil p) as Hn.
  unfold NilZero.string_of_uint.
  destruct (Pos.to_uint p) eqn:E; [contradiction | ..];
    rewrite <- E; change (lit (String "-" ?s)) with (45%N :: lit s);
    (rewrite <- lit_string_of_uint; reflexivity).
Qed.

Lemma digits_head (p : positive) :
  exists c t,
    digits_of (Pos.to_uint p) = c :: t
    /\ N.leb 49 c && N.leb c 57 = true.
Proof.
  pose proof (to_uint_head p) as Hh.
  pose proof (DecimalPos.Unsigned.to_uint_nonnil p) as Hn.
  destruct (Pos.to_uint p) as [|d|d|d|d|d|d|d|d|d|d];
    [contradiction | exfalso; apply (Hh d); reflexivity | ..];
    cbn [digits_of]; eauto.
Qed.

(** Reading back an integer. *)
Lemma scan_once_int (fuel : nat) (z : Z) (rest : pystr) :
  ends_number rest = true ->
  scan_once (S fuel) (int_str z ++ rest) = Some (VInt z, rest).
Proof.
  intros H. destruct z as [|p|p].
  - change (int_str 0) with [48%N]. cbn [app scan_once].
    unfold DQUOTE. cbn [N.eqb Pos.eqb scan_nat].
    rewrite (ends_number_no_float rest H). reflexivity.
  - rewrite int_str_pos.
    destruct (digits_head p) as (c & t & E & Hc).
    pose proof (scan_nat_pos p rest H) as Hs. rewrite E in Hs |- *.
    cbn [app] in Hs |- *.
    apply andb_true_iff in Hc. destruct Hc as [H1 H2].
    apply N.leb_le in H1. apply N.leb_le in H2.
    cbn [scan_once]. unfold DQUOTE.
    repeat match goal with
           | |- context [N.eqb c ?k] =>
               replace (N.eqb c k) with false
                 by (symmetry; apply N.eqb_neq; lia)
           end.
    rewrite Hs. reflexivity.
  - rewrite int_str_neg. cbn [app scan_once]. unfold DQUOTE.
    cbn [N.eqb Pos.eqb]. rewrite (scan_nat_pos p rest H). reflexivity.
Qed.

End Numbers.

(** ** The metadata text of scalar arguments (lines 44-72) *)

Section ScalarMetadata.

Lemma scalar_serialisable (v : value) : scalar v = true -> serialisable v = true.
Proof. destruct v; try discriminate; reflexivity. Qed.

Lemma int_str_head (z : Z) :
  exists c t, int_str z = c :: t /\ is_json_ws c = false.
Proof.
  destruct z as [|p|p].
  - exists 48%N, []. split; reflexivity.
  - rewrite int_str_pos. destruct (digits_head p) as (c & t & E & Hc).
    exists c, t. split; [exact E|].
    apply andb_true_iff in Hc. destruct Hc as [H1 _]. apply N.leb_le in H1.
    unfold is_json_ws.
    repeat match goal with
           | |- context [N.eqb c ?k] =>
               replace (N.eqb c k) with false
                 by (symmetry; apply N.eqb_neq; lia)
           end.
    reflexivity.
  - rewrite int_str_neg. exists 45%N. eexists. split; reflexivity.
Qed.

Lemma skip_ws_scalar (v : value) (rest : pystr) :
  scalar v = true -> skip_ws (json_text v ++ rest) = json_text v ++ rest.
Proof.
  destruct v as [| [|] | z | s | | |]; try discriminate; intros _;
    try reflexivity.
  cbn [json_text]. destruct (int_str_head z) as (c & t & -> & Hc).
  cbn [app skip_ws]. rewrite Hc. reflexivity.
Qed.

Lemma scan_once_scalar (fuel : nat) (v : value) (rest : pystr) :
  scalar v = true ->
  ends_number rest = true ->
  scan_once (S fuel) (json_text v ++ rest) = Some (v, rest).
Proof.
  destruct v as [| [|] | z | s | | |]; try discriminate; intros _ Hrest.
  - reflexivity.
  - reflexivity.
  - reflexivity.
  - apply scan_once_int. exact Hrest.
  - unfold json_text, encode_basestring.
    cbn [app scan_once]. unfold DQUOTE at 1. cbn [N.eqb Pos.eqb].
    rewrite <- app_assoc. cbn [app]. rewrite scan_string_encode.
    reflexivity.
Qed.

Lemma json_text_members (kv : pystr * value) (d : list (pystr * value)) :
  json_text (VDict (kv :: d))
  = 123%N :: DQUOTE :: member_text kv ++ next_members d ++ [125%N].
Proof.
  cbn [json_text].
  set (f := fun kv : pystr * value =>
              encode_basestring (fst kv) ++ lit ": " ++ json_text (snd kv)).
  assert (E : join (lit ", ") (map f (kv :: d))
              = DQUOTE :: member_text kv ++ next_members d).
  { revert kv. induction d as [|kv' d IH]; intros kv.
    - cbn [map join next_members]. unfold f, encode_basestring, member_text.
      cbn [app]. rewrite <- !app_assoc. rewrite app_nil_r. reflexivity.
    - change (join (lit ", ") (map f (kv :: kv' :: d)))
        with (f kv ++ lit ", " ++ join (lit ", ") (map f (kv' :: d))).
      rewrite IH. cbn [next_members].
      unfold f, encode_basestring, member_text.
      cbn [app]. rewrite <- !app_assoc. reflexivity. }
  rewrite E. change (lit "{") with [123%N]. change (lit "}") with [125%N].
  cbn [app]. rewrite <- app_assoc. reflexivity.
Qed.

(** Reading back the members of a mapping of scalars, from after the
    opening quote of the first key. *)
Lemma scan_members_scalar (d : list (pystr * value)) :
  forall (kv : pystr * value) (fuel : nat) (rest : pystr),
    all_scalar (kv :: d) ->
    S (List.length d) < fuel ->
    scan_members fuel (member_text kv ++ next_members d ++ 125%N :: rest)
    = Some (kv :: d, rest).
Proof.
  induction d as [|kv' d IH]; intros [k v] fuel rest Hall Hfuel;
    inversion Hall as [|? ? Hv Hd]; subst; cbn [snd] in Hv;
    (destruct fuel as [|fuel]; [simpl in Hfuel; lia|]);
    unfold member_text; cbn [fst snd];
    rewrite <- !app_assoc; cbn [app]; rewrite <- ?app_assoc;
    cbn [scan_members];
    (destruct fuel as [|fuel]; [simpl in Hfuel; lia|]);
    rewrite scan_string_encode;
    change (lit ": ") with [58%N; 32%N];
    cbn [app skip_ws is_json_ws N.eqb Pos.eqb orb];
    rewrite (skip_ws_scalar _ _ Hv).
  - cbn [next_members app].
    rewrite (scan_once_scalar fuel v (125%N :: rest) Hv eq_refl).
    reflexivity.
  - cbn [next_members]. change (lit ", ") with [44%N; 32%N].
    rewrite <- ?app_assoc. cbn [app].
    rewrite (scan_once_scalar fuel v); [| exact Hv | reflexivity].
    cbn [app skip_ws is_json_ws N.eqb Pos.eqb orb].
    unfold DQUOTE at 1 2 3.
    cbn [app skip_ws is_json_ws N.eqb Pos.eqb orb].
    rewrite <- ?app_assoc.
    rewrite (IH kv' (S fuel) rest Hd) by (simpl in Hfuel |- *; lia).
    reflexivity.
Qed.

Lemma next_members_length (d : list (pystr * value)) :
  List.length d <= List.length (next_members d).
Proof.
  induction d as [|kv d IH]; [apply Nat.le_refl|].
  cbn [next_members]. rewrite !length_app. simpl List.length.
  rewrite !length_app. lia.
Qed.

(** Decoding the text of a mapping of scalars gives back its members,
    collected into a mapping. *)
Lemma json_loads_scalars (kv : pystr * value) (d : list (pystr * value)) :
  all_scalar (kv :: d) ->
  json_loads (json_text (VDict (kv :: d)))
  = Some (VDict (dict_of_pairs (kv :: d))).
Proof.
  intros H. rewrite json_text_members. unfold json_loads.
  cbn [skip_ws is_json_ws N.eqb Pos.eqb orb].
  cbn [scan_once]. unfold DQUOTE at 1 2 3 4.
  cbn [N.eqb Pos.eqb skip_ws is_json_ws orb].
  rewrite scan_members_scalar; [reflexivity | exact H |].
  pose proof (next_members_length d) as L.
  cbn [List.length]. rewrite !length_app. lia.
Qed.

Lemma json_dumps_scalars (d : list (pystr * value)) :
  all_scalar d -> json_dumps (VDict d) = Ok (json_text (VDict d)).
Proof.
  intros H. rewrite json_dumps_spec.
  replace (serialisable (VDict d)) with true; [reflexivity|].
  symmetry. cbn [serialisable]. apply forallb_forall. intros kv Hkv.
  apply scalar_serialisable.
  unfold all_scalar in H. rewrite Forall_forall in H. apply H. exact Hkv.
Qed.

Lemma scalar_arg_or (default : value) (a : option value) :
  scalar default = true -> scalar_arg a = true ->
  scalar (arg_or default a) = true.
Proof. destruct a; intros Hd Ha; [exact Ha | exact Hd]. Qed.

Lemma meta_content_scalar (kw : meta_kwargs) :
  scalar_kwargs kw = true ->
  exists kv d, meta_content kw = VDict (kv :: d)
               /\ all_scalar (kv :: d)
               /\ dict_of_pairs (kv :: d) = kv :: d.
Proof.
  unfold scalar_kwargs. intros H.
  repeat (apply andb_true_iff in H; destruct H as [H ?]).
  unfold meta_content. do 2 eexists. split; [reflexivity|]. split.
  - repeat constructor; cbn [snd]; apply scalar_arg_or;
      solve [reflexivity | assumption].
  - reflexivity.
Qed.

(** The text and its decoding, for arguments left out or scalars. *)
Lemma create_meta_file_scalar_text (kw : meta_kwargs) :
  scalar_kwargs kw = true ->
  create_meta_file kw = Ok (json_text (meta_content kw))
  /\ json_loads (json_text (meta_content kw)) = Some (meta_content kw).
Proof.
  intros H.
  destruct (meta_content_scalar kw H) as (kv & d & E & Hall & Hd).
  unfold create_meta_file. rewrite E. split.
  - apply json_dumps_scalars. exact Hall.
  - rewrite (json_loads_scalars kv d Hall), Hd. reflexivity.
Qed.

End ScalarMetadata.

(** X9: for every call of [create_meta_file] whose arguments are left
    out or scalars ([None], a truth value, text, an integer of at most
    4300 digits), in any mixture, the function returns a text, and
    decoding that text gives back exactly the mapping of the twelve keys
    to the arguments, with the defaults [0] and [file] for [level] and
    [attachment_type] left out and [None] for the others. *)
Theorem create_meta_file_scalars :
  forall kw : meta_kwargs,
    scalar_kwargs kw = true ->
    exists text,
      create_meta_file kw = Ok text
      /\ json_loads text = Some (meta_content kw).
Proof.
  intros kw H. exists (json_text (meta_content kw)).
  exact (create_meta_file_scalar_text kw H).
Qed.

Lemma create_meta_file_scalars_witness :
  scalar_kwargs sample_scalar_kwargs = true
  /\ exists text,
       create_meta_file sample_scalar_kwargs = Ok text
       /\ json_loads text = Some (meta_content sample_scalar_kwargs).
Proof.
  split; [vm_compute; reflexivity|].
  apply (create_meta_file_scalars sample_scalar_kwargs).
  vm_compute. reflexivity.
Defined.

Example create_meta_file_scalars_sample :
  create_meta_file sample_scalar_kwargs
  = Ok (lit "{" ++ quoted "level" ++ lit ": -12, "
        ++ quoted "title" ++ lit ": " ++ quoted "Login page" ++ lit ", "
        ++ quoted "file_name" ++ lit ": true, "
        ++ quoted "file_record_id" ++ lit ": 1048576, "
        ++ quoted "file_original_name" ++ lit ": null, "
        ++ quoted "file_original_path" ++ lit ": null, "
        ++ quoted "source" ++ lit ": "
        ++ [DQUOTE; 233%N; BACKSLASH; 110%N; BACKSLASH; DQUOTE; DQUOTE]
        ++ lit ", "
        ++ quoted "value_stream" ++ lit ": null, "
        ++ quoted "categories" ++ lit ": null, "
        ++ quoted "parent_file_name" ++ lit ": null, "
        ++ quoted "attachment_type" ++ lit ": " ++ quoted "file" ++ lit ", "
        ++ quoted "owner" ++ lit ": false}").
Proof. vm_compute. reflexivity. Qed.

(** ** The attachment list (lines 107-111) *)

Lemma attach_entry_renamed (info entry : value) :
  attach_entry info = Ok entry <-> renamed_from info entry.
Proof.
  unfold attach_entry, renamed_from, key. split.
  - intros H.
    destruct (py_getitem info (VStr (lit "id"))) as [i|] eqn:Ei;
      [|discriminate].
    apply getitem_key_ok in Ei. destruct Ei as (d & -> & Hi).
    cbn [bind] in H. rewrite !getitem_dict in H.
    destruct (dict_lookup (lit "filename") d) as [f|] eqn:Ef;
      [|discriminate].
    destruct (dict_lookup (lit "created") d) as [c|] eqn:Ec;
      [|discriminate].
    destruct (dict_lookup (lit "size") d) as [s|] eqn:Es; [|discriminate].
    destruct (dict_lookup (lit "content") d) as [u|] eqn:Eu;
      [|discriminate].
    cbn [bind] in H. injection H as <-.
    exists d, i, f, c, s, u. repeat split; assumption.
  - intros (d & i & f & c & s & u & -> & Hi & Hf & Hc & Hs & Hu & ->).
    rewrite !getitem_dict, Hi, Hf, Hc, Hs, Hu. reflexivity.
Qed.

(** X10: when the attachment field is a list of [n] elements, each with
    its [id], [filename], [created], [size] and [content], lines 107-111
    build a list of exactly [n] entries, the i-th one from the i-th
    element with [id], [filename] and [content] renamed to [file_id],
    [file_name] and [url]; no element is dropped, added or reordered. *)
Theorem attach_list_rule :
  forall (fd : list (pystr * value)) (infos : list value),
    dict_lookup (lit "attachment") fd = Some (VList infos) ->
    Forall (fun info => exists entry, renamed_from info entry) infos ->
    exists entries,
      attach_list_of (VDict fd) = Ok (VList entries)
      /\ List.length entries = List.length infos
      /\ Forall2 renamed_from infos entries.
Proof.
  intros fd infos Hd Hinfos.
  assert (He : exists entries, mapM attach_entry infos = Ok entries).
  { clear Hd. induction Hinfos as [|info infos' H _ IH].
    - exists []. reflexivity.
    - destruct H as [e H]. destruct IH as [es IH].
      exists (e :: es). cbn [mapM].
      apply attach_entry_renamed in H. rewrite H, IH. reflexivity. }
  destruct He as [entries He].
  unfold attach_list_of, key. rewrite !getitem_dict, Hd. cbn [bind].
  destruct infos as [|info infos'].
  - cbn [mapM] in He. injection He as <-. exists []. cbn. auto.
  - exists entries. cbn [py_truthy bind py_iter]. rewrite He. cbn [bind].
    split; [reflexivity|]. split.
    + exact (@mapM_length _ _ attach_entry _ _ He).
    + apply mapM_Forall2 in He.
      eapply Forall2_impl; [|exact He].
      intros a b Hab. apply attach_entry_renamed. exact Hab.
Qed.

Lemma attach_list_rule_witness :
  exists entries,
    attach_list_of sample_fields = Ok (VList entries)
    /\ List.length entries = 1
    /\ Forall2 renamed_from [sample_attach_info] entries.
Proof.
  refine (attach_list_rule
            (map (fun kv : string * value => (lit (fst kv), snd kv))
               [ ("summary", key "Login fails");
                 ("description", VStr sample_description);
                 ("status", dict [("name", key "Open")]);
                 ("updated", key "2024-01-02");
                 ("issuetype", dict [("name", key "Bug")]);
                 ("labels", VList [key "a"; key "b"]);
                 ("customfield_27708", VNone);
                 ("customfield_26615", VList [dict [("value", key "EU")]]);
                 ("attachment", VList [sample_attach_info]) ]%string)
            [sample_attach_info] eq_refl _).
  constructor; [|constructor].
  eexists. apply attach_entry_renamed. vm_compute. reflexivity.
Defined.

(** ** A [UUID] object among the arguments (lines 44-72, 129-142) *)

Lemma arg_or_uuid (default : value) (a : option value) :
  uuid_arg a = true -> serialisable (arg_or default a) = false.
Proof. destruct a as [[]|]; try discriminate; reflexivity. Qed.

Lemma uuid_not_serialisable (kw : meta_kwargs) :
  some_uuid kw = true -> serialisable (meta_content kw) = false.
Proof.
  unfold some_uuid. intros H.
  unfold meta_content. cbn [serialisable forallb snd].
  repeat (apply orb_true_iff in H; destruct H as [H|H]);
    rewrite (arg_or_uuid _ _ H); cbn [andb];
    repeat (rewrite andb_false_r; cbn [andb]); reflexivity.
Qed.

(** X11: [create_meta_file] called with a [UUID] object for any of its
    twelve parameters, the others left out or scalars, raises
    [TypeError]: [json.dumps] has no encoding for the object, and
    nothing is returned. *)
Theorem create_meta_file_rejects_uuid :
  forall kw : meta_kwargs,
    scalar_or_uuid_kwargs kw = true ->
    some_uuid kw = true ->
    create_meta_file kw = Raise TypeError.
Proof.
  intros kw _ H. unfold create_meta_file.
  rewrite json_dumps_spec, (uuid_not_serialisable kw H). reflexivity.
Qed.

Lemma create_meta_file_rejects_uuid_witness :
  create_meta_file sample_uuid_kwargs = Raise TypeError.
Proof.
  apply (create_meta_file_rejects_uuid sample_uuid_kwargs);
    vm_compute; reflexivity.
Defined.

(** ** The metadata of the main task (lines 129-142) *)

Lemma main_meta_of_kwargs (rid main_task md_dict sm : value)
  (fn self : pystr) :
  py_getitem md_dict (key "summary") = Ok sm ->
  py_getitem main_task (key "self") = Ok (VStr self) ->
  main_meta_of rid (VStr fn) main_task md_dict
  = create_meta_file
      {| level := Some (VInt 0);
         title := Some sm;
         file_name := Some (VStr fn);
         file_record_id := Some rid;
         file_original_name := Some sm;
         file_original_path := Some (VStr ((self ++ lit "/") ++ fn));
         source := Some (key "jira-iwpb");
         value_stream := Some (VStr []);
         categories := Some (VStr []);
         parent_file_name := Some VNone;
         attachment_type := Some (key "file");
         owner := Some (VStr []) |}.
Proof.
  intros Hsm Hself. unfold main_meta_of. rewrite Hsm, Hself. reflexivity.
Qed.

Lemma main_meta_of_scalar (rid main_task md_dict sm : value)
  (fn self : pystr) :
  py_getitem md_dict (key "summary") = Ok sm ->
  py_getitem main_task (key "self") = Ok (VStr self) ->
  scalar sm = true ->
  scalar rid = true ->
  exists meta,
    main_meta_of rid (VStr fn) main_task md_dict = Ok meta
    /\ json_loads meta = Some (main_meta_mapping rid (VStr fn) sm self fn).
Proof.
  intros Hsm Hself Hs Hr.
  rewrite (main_meta_of_kwargs rid main_task md_dict sm fn self Hsm Hself).
  match goal with
  | |- exists meta, create_meta_file ?kw = _ /\ _ =>
      destruct (create_meta_file_scalar_text kw) as [Hd Hl];
      [unfold scalar_kwargs; cbn [level title file_name file_record_id
         file_original_name file_original_path source value_stream
         categories parent_file_name attachment_type owner scalar_arg];
       rewrite Hs, Hr; reflexivity|];
      exists (json_text (meta_content kw))
  end.
  split; [exact Hd|]. rewrite Hl. unfold main_meta_mapping, meta_content.
  cbn [level title file_name file_record_id file_original_name
       file_original_path source value_stream categories parent_file_name
       attachment_type owner arg_or].
  rewrite <- app_assoc. reflexivity.
Qed.

(** X12: lines 129-142 with the record identifier a [UUID] object, as
    line 75 makes it: when the summary is a scalar and the issue's
    self-reference is text, so that every argument before
    [file_record_id] is accepted, the call raises [TypeError] whatever
    the file name; the metadata is not produced. *)
Theorem main_meta_rejects_uuid :
  forall (u : N) (main_task md_dict sm : value) (fn self : pystr),
    py_getitem md_dict (key "summary") = Ok sm ->
    py_getitem main_task (key "self") = Ok (VStr self) ->
    scalar sm = true ->
    main_meta_of (VUUID u) (VStr fn) main_task md_dict = Raise TypeError.
Proof.
  intros u main_task md_dict sm fn self Hsm Hself Hs.
  rewrite (main_meta_of_kwargs (VUUID u) main_task md_dict sm fn self
             Hsm Hself).
  unfold create_meta_file. rewrite json_dumps_spec.
  rewrite uuid_not_serialisable; [reflexivity|].
  destruct sm; try discriminate Hs; reflexivity.
Qed.

Lemma main_meta_rejects_uuid_witness :
  main_meta_of (VUUID 7) (key "7.md") sample_main sample_md_dict
  = Raise TypeError.
Proof.
  apply (main_meta_rejects_uuid 7 sample_main sample_md_dict
           (key "Login fails") (lit "7.md") (lit "http://jira/1"));
    reflexivity.
Defined.

(** X13: lines 129-142 with a scalar record identifier and a textual
    file name: when the summary is a scalar and the issue's
    self-reference is text, the metadata is returned, and decoding it
    gives the twelve keys with level [0], the summary as title and as
    original name, the file name and the identifier as passed, the
    self-reference joined to the file name by [/] as original path, the
    source [jira-iwpb], attachment type [file], parent [None] and the
    three remaining fields empty. *)
Theorem main_meta_rule :
  forall (rid main_task md_dict sm : value) (fn self : pystr),
    py_getitem md_dict (key "summary") = Ok sm ->
    py_getitem main_task (key "self") = Ok (VStr self) ->
    scalar sm = true ->
    scalar rid = true ->
    exists meta,
      main_meta_of rid (VStr fn) main_task md_dict = Ok meta
      /\ json_loads meta = Some (main_meta_mapping rid (VStr fn) sm self fn).
Proof. exact main_meta_of_scalar. Qed.

Lemma main_meta_rule_witness :
  exists meta,
    main_meta_of (key "7") (key "7.md") sample_main sample_md_dict = Ok meta
    /\ json_loads meta
       = Some (main_meta_mapping (key "7") (key "7.md") (key "Login fails")
                 (lit "http://jira/1") (lit "7.md")).
Proof.
  apply (main_meta_rule (key "7") sample_main sample_md_dict
           (key "Login fails") (lit "7.md") (lit "http://jira/1"));
    reflexivity.
Defined.

(** ** The body as a whole (lines 77-143) *)

(** X14: with a scalar record identifier and a textual file name in
    place of the values of lines 75-76, the body returns whenever the
    extraction of lines 77-123 succeeds, the summary it found is a
    scalar and the issue's self-reference is text: nothing after the
    extraction can fail.  The result is the report rendered from the
    extracted values, a metadata text that decodes to the mapping of
    lines 129-142, and the issue key. *)
Theorem proc_task_body_returns :
  forall (repr : value -> pystr) (rid json_result sm : value)
         (is_main_task : bool) (fn self : pystr) (x : extracted),
    extract json_result is_main_task = Ok x ->
    py_getitem (x_md_dict x) (key "summary") = Ok sm ->
    py_getitem (x_main_task x) (key "self") = Ok (VStr self) ->
    scalar sm = true ->
    scalar rid = true ->
    exists report meta,
      proc_task_body repr rid (VStr fn) json_result is_main_task
      = Ok (report, meta, x_file_name x)
      /\ create_md_file repr (x_md_dict x) (x_attach_list x)
           (x_sub_task_list x) = Ok report
      /\ json_loads meta = Some (main_meta_mapping rid (VStr fn) sm self fn).
Proof.
  intros repr rid json_result sm is_main_task fn self x Hx Hsm Hself Hs Hr.
  destruct (extract_ok_parts json_result is_main_task x Hx)
    as (fields & Hmd & Hal & Hsl).
  destruct (@create_md_file_extracted repr fields json_result _ _ _
              Hmd Hal Hsl) as [report Hrep].
  destruct (main_meta_of_scalar rid (x_main_task x) (x_md_dict x) sm fn self
              Hsm Hself Hs Hr) as (meta & Hmeta & Hload).
  exists report, meta. unfold proc_task_body.
  rewrite Hx. cbn [bind]. rewrite Hrep. cbn [bind]. rewrite Hmeta.
  cbn [bind]. auto.
Qed.

Lemma proc_task_body_returns_witness :
  exists x report meta,
    extract sample_document true = Ok x
    /\ proc_task_body sample_repr (key "7") (key "7.md") sample_document true
       = Ok (report, meta, x_file_name x)
    /\ create_md_file sample_repr (x_md_dict x) (x_attach_list x)
         (x_sub_task_list x) = Ok report
    /\ json_loads meta
       = Some (main_meta_mapping (key "7") (key "7.md") (key "Login fails")
                 (lit "http://jira/1") (lit "7.md")).
Proof.
  destruct (extract sample_document true) as [x|] eqn:H;
    [|vm_compute in H; discriminate H].
  assert (Hx : x = {| x_main_task := sample_main;
                      x_file_name := key "JA-1";
                      x_md_dict := sample_md_dict;
                      x_attach_list := VList [sample_attach];
                      x_sub_task_list := VList [sample_sub_task] |}).
  { vm_compute in H. injection H as <-. vm_compute. reflexivity. }
  assert (Hsm : py_getitem (x_md_dict x) (key "summary")
                = Ok (key "Login fails")) by (rewrite Hx; reflexivity).
  assert (Hself : py_getitem (x_main_task x) (key "self")
                  = Ok (VStr (lit "http://jira/1")))
    by (rewrite Hx; reflexivity).
  destruct (proc_task_body_returns sample_repr (key "7") sample_document
              (key "Login fails") true (lit "7.md") (lit "http://jira/1")
              x H Hsm Hself eq_refl eq_refl)
    as (report & meta & H1 & H2 & H3).
  exists x, report, meta. auto.
Defined.

(** ** No raw control character in the metadata text (line 72) *)

Section NoControl.

Lemma hex_fixed_no_control (width : nat) (n : N) :
  forallb no_control (hex_fixed width n) = true.
Proof.
  revert n. induction width as [|w IH]; intros n; [reflexivity|].
  cbn [hex_fixed]. rewrite forallb_app, IH. cbn [forallb andb].
  rewrite andb_true_r. unfold no_control, hex_digit.
  generalize (N.modulo n 16). intros m.
  destruct (N.ltb m 10); apply N.leb_le; lia.
Qed.

Lemma escape_char_no_control (c : N) :
  forallb no_control (escape_char c) = true.
Proof.
  unfold escape_char.
  repeat match goal with
         | |- context [if N.eqb c ?k then _ else _] =>
             destruct (N.eqb c k); [reflexivity|]
         end.
  destruct (N.ltb c 32) eqn:E.
  - change (forallb no_control (BACKSLASH :: 117%N :: hex_fixed 4 c))
      with (forallb no_control (hex_fixed 4 c)).
    apply hex_fixed_no_control.
  - cbn [forallb]. unfold no_control. apply N.ltb_ge in E.
    rewrite andb_true_r. apply N.leb_le. exact E.
Qed.

Lemma escaped_no_control (s : pystr) :
  forallb no_control (flat_map escape_char s) = true.
Proof.
  induction s as [|c s IH]; [reflexivity|].
  cbn [flat_map]. rewrite forallb_app, escape_char_no_control, IH.
  reflexivity.
Qed.

Lemma digits_no_control (d : Decimal.uint) :
  forallb no_control (digits_of d) = true.
Proof. induction d; [reflexivity | exact IHd ..]. Qed.

Lemma int_str_no_control (z : Z) : forallb no_control (int_str z) = true.
Proof.
  destruct z as [|p|p].
  - reflexivity.
  - rewrite int_str_pos. apply digits_no_control.
  - rewrite int_str_neg. exact (digits_no_control (Pos.to_uint p)).
Qed.

Lemma scalar_text_no_control (v : value) :
  scalar v = true -> forallb no_control (json_text v) = true.
Proof.
  destruct v as [| [|] | z | s | | |]; try discriminate; intros _;
    try reflexivity.
  - apply int_str_no_control.
  - unfold json_text, encode_basestring.
    change (forallb no_control (DQUOTE :: flat_map escape_char s ++ [DQUOTE]))
      with (forallb no_control (flat_map escape_char s ++ [DQUOTE])).
    rewrite forallb_app, escaped_no_control. reflexivity.
Qed.

Lemma member_text_no_control (kv : pystr * value) :
  scalar (snd kv) = true -> forallb no_control (member_text kv) = true.
Proof.
  intros H. unfold member_text.
  rewrite forallb_app, escaped_no_control.
  change (lit ": ") with [58%N; 32%N]. cbn [app forallb andb].
  change (no_control DQUOTE) with true. change (no_control 58) with true.
  change (no_control 32) with true. cbn [andb].
  apply scalar_text_no_control. exact H.
Qed.

Lemma next_members_no_control (d : list (pystr * value)) :
  all_scalar d -> forallb no_control (next_members d) = true.
Proof.
  induction 1 as [|kv d Hkv _ IH]; [reflexivity|].
  cbn [next_members]. change (lit ", ") with [44%N; 32%N].
  cbn [app forallb].
  change (no_control 44) with true. change (no_control 32) with true.
  change (no_control DQUOTE) with true. cbn [andb].
  rewrite forallb_app, (member_text_no_control kv Hkv), IH. reflexivity.
Qed.

Lemma meta_text_no_control (kw : meta_kwargs) :
  scalar_kwargs kw = true ->
  forallb no_control (json_text (meta_content kw)) = true.
Proof.
  intros H. destruct (meta_content_scalar kw H) as (kv & d & E & Hall & _).
  rewrite E, json_text_members.
  inversion Hall as [|? ? Hkv Hd]; subst.
  cbn [forallb]. change (no_control 123) with true.
  change (no_control DQUOTE) with true. cbn [andb].
  rewrite !forallb_app, (member_text_no_control kv Hkv),
    (next_members_no_control d Hd).
  reflexivity.
Qed.

End NoControl.

(** X15: the text [create_meta_file] returns for arguments left out or
    scalars holds no code point below U+0020, whatever the arguments
    hold: in particular no raw line feed, carriage return or tab.
    Nothing is said of the code points from U+007F on, which are written
    as they are (U+0085, U+2028 and U+2029 among them). *)
Theorem create_meta_file_no_c0_control :
  forall (kw : meta_kwargs) (text : pystr),
    scalar_kwargs kw = true ->
    create_meta_file kw = Ok text ->
    forallb no_control text = true.
Proof.
  intros kw text H Ht.
  destruct (create_meta_file_scalar_text kw H) as [Hd _].
  rewrite Hd in Ht. injection Ht as <-.
  apply meta_text_no_control. exact H.
Qed.

Lemma create_meta_file_no_c0_control_witness :
  exists text,
    create_meta_file sample_scalar_kwargs = Ok text
    /\ forallb no_control text = true.
Proof.
  destruct (create_meta_file sample_scalar_kwargs) as [text|] eqn:E;
    [|vm_compute in E; discriminate E].
  exists text. split; [reflexivity|].
  apply (create_meta_file_no_c0_control sample_scalar_kwargs text);
    [vm_compute; reflexivity | exact E].
Defined.

(** A line separator above U+007F is written as it is. *)
Example line_separator_unescaped :
  create_meta_file
    {| level := None; title := Some (VStr [8232%N]); file_name := None;
       file_record_id := None; file_original_name := None;
       file_original_path := None; source := None; value_stream := None;
       categories := None; parent_file_name := None;
       attachment_type := None; owner := None |}
  = Ok (lit "{" ++ quoted "level" ++ lit ": 0, "
        ++ quoted "title" ++ lit ": " ++ [DQUOTE; 8232%N; DQUOTE] ++ lit ", "
        ++ quoted "file_name" ++ lit ": null, "
        ++ quoted "file_record_id" ++ lit ": null, "
        ++ quoted "file_original_name" ++ lit ": null, "
        ++ quoted "file_original_path" ++ lit ": null, "
        ++ quoted "source" ++ lit ": null, "
        ++ quoted "value_stream" ++ lit ": null, "
        ++ quoted "categories" ++ lit ": null, "
        ++ quoted "parent_file_name" ++ lit ": null, "
        ++ quoted "attachment_type" ++ lit ": " ++ quoted "file" ++ lit ", "
        ++ quoted "owner" ++ lit ": null}").
Proof. vm_compute. reflexivity. Qed.
